(** * jira2ralph: the JIRA ticket fetcher, [jira_fetcher.py]

    A shallow embedding of [JiraFetcher.__init__],
    [JiraFetcher.fetch_all_tickets], [JiraFetcher.transform_to_prd_format],
    [_extract_text_from_adf], [_extract_acceptance_criteria] and [main],
    followed by the properties of the pipeline.

    Conventions.
    - A Python [str] is a list of Unicode code points ([pystr]).
    - A value decoded from JSON is a [json] tree; a [dict] keeps its items as
      an association list in which the first binding of a key is the one the
      dict holds.
    - Code that can raise returns [result]; the [while True] loop of the
      fetcher runs on fuel and returns [None] when the fuel is used up.
    - The Unicode tables behind [str.lower], [str.isupper], [str.isdigit],
      [str.strip] and the formatting of a value inside an f-string are not
      part of the repository: they are the fields of [PyBuiltins], fixed on
      the ASCII range by the laws of that record. *)

From Stdlib Require Import String Ascii List ZArith NArith Bool Lia PeanoNat.
Import ListNotations.

Set Implicit Arguments.
#[local] Set Warnings "-register-all".

(** ** Python strings *)

Definition pystr := list N.

(** An ASCII literal as a Python string. *)
Definition u (s : string) : pystr :=
  map N_of_ascii (list_ascii_of_string s).

Fixpoint pystr_eqb (a b : pystr) : bool :=
  match a, b with
  | [], [] => true
  | x :: a', y :: b' => N.eqb x y && pystr_eqb a' b'
  | _, _ => false
  end.

Definition is_ascii (s : pystr) : bool := forallb (fun c => N.ltb c 128) s.

(** [c in chars], for a character and the argument of [lstrip]. *)
Definition char_in (chars : pystr) (c : N) : bool := existsb (N.eqb c) chars.

Fixpoint drop_while (p : N -> bool) (s : pystr) : pystr :=
  match s with
  | [] => []
  | c :: s' => if p c then drop_while p s' else s
  end.

(** [s.lstrip(chars)] *)
Definition lstrip_chars (chars s : pystr) : pystr := drop_while (char_in chars) s.

Fixpoint starts_with (prefix s : pystr) : bool :=
  match prefix, s with
  | [], _ => true
  | p :: prefix', c :: s' => N.eqb p c && starts_with prefix' s'
  | _ :: _, [] => false
  end.

(** [needle in hay] *)
Fixpoint contains (needle hay : pystr) : bool :=
  starts_with needle hay ||
  match hay with
  | [] => false
  | _ :: hay' => contains needle hay'
  end.

(** [s.split(sep)] for a one-character separator: never the empty list. *)
Fixpoint split_on (sep : N) (s : pystr) : list pystr :=
  match s with
  | [] => [[]]
  | c :: s' =>
      if N.eqb c sep then [] :: split_on sep s'
      else match split_on sep s' with
           | [] => [[c]]
           | w :: ws => (c :: w) :: ws
           end
  end.

Definition newline : pystr := [10%N].

(** [sep.join(parts)] *)
Fixpoint join (sep : pystr) (parts : list pystr) : pystr :=
  match parts with
  | [] => []
  | [p] => p
  | p :: rest => p ++ sep ++ join sep rest
  end.

Definition ascii_lower_char (c : N) : N :=
  if N.leb 65 c && N.leb c 90 then (c + 32)%N else c.
Definition ascii_isupper (c : N) : bool := N.leb 65 c && N.leb c 90.
Definition ascii_isdigit (c : N) : bool := N.leb 48 c && N.leb c 57.
(** The ASCII characters [str.isspace] accepts: TAB, LF, VT, FF, CR, the
    four separators FS, GS, RS, US and the space. *)
Definition ascii_isspace (c : N) : bool :=
  (N.leb 9 c && N.leb c 13) || (N.leb 28 c && N.leb c 32).

(** [f"{n:03d}"]: decimal digits, padded with zeros to a width of three. *)
Fixpoint digits_fuel (fuel : nat) (n : N) (acc : pystr) : pystr :=
  match fuel with
  | O => acc
  | S fuel' =>
      let acc' := (48 + n mod 10)%N :: acc in
      if N.ltb n 10 then acc' else digits_fuel fuel' (n / 10)%N acc'
  end.
Definition decimal (n : N) : pystr := digits_fuel (S (N.to_nat n)) n [].
Definition pad3 (n : N) : pystr :=
  let d := decimal n in
  repeat 48%N (3 - length d) ++ d.

(** ** Decoded JSON values *)

Inductive json : Type :=
| JNull
| JBool (b : bool)
| JInt (z : Z)
| JFloat (nonzero : bool) (text : pystr)
| JStr (s : pystr)
| JArr (items : list json)
| JObj (items : list (pystr * json)).

(** A float is kept as what the code can observe of it: its truth value
    and its text. *)

Definition is_dict (v : json) : bool :=
  match v with JObj _ => true | _ => false end.

(** [bool(v)] *)
Definition truthy (v : json) : bool :=
  match v with
  | JNull => false
  | JBool b => b
  | JInt z => negb (Z.eqb z 0)
  | JFloat nz _ => nz
  | JStr s => match s with [] => false | _ => true end
  | JArr l => match l with [] => false | _ => true end
  | JObj l => match l with [] => false | _ => true end
  end.

(** [v == s] for a string literal [s] *)
Definition is_str (s : pystr) (v : json) : bool :=
  match v with JStr t => pystr_eqb t s | _ => false end.

(** [d.get(k)] on the items of a dict *)
Fixpoint dict_get (items : list (pystr * json)) (k : pystr) : option json :=
  match items with
  | [] => None
  | (k', v) :: rest => if pystr_eqb k' k then Some v else dict_get rest k
  end.

(** [d.get(k, default)] *)
Definition dict_get_default (items : list (pystr * json)) (k : pystr) (d : json) : json :=
  match dict_get items k with Some v => v | None => d end.

(** ** Exceptions *)

Inductive pyerror := AttributeError | TypeError.

Inductive result (A : Type) : Type :=
| Ok (a : A)
| Raise (e : pyerror).
Arguments Ok {A} a.
Arguments Raise {A} e.

Definition bind {A B} (r : result A) (k : A -> result B) : result B :=
  match r with Ok a => k a | Raise e => Raise e end.

Notation "x <- r ;; k" := (bind r (fun x => k))
  (at level 61, r at next level, right associativity).

Definition is_ok {A} (r : result A) : bool :=
  match r with Ok _ => true | Raise _ => false end.

(** ** The Python builtins the code relies on *)

Record PyBuiltins : Type := {
  str_lower : pystr -> pystr;
  chr_isupper : N -> bool;
  chr_isdigit : N -> bool;
  chr_isspace : N -> bool;
  py_format : json -> pystr;
  str_lower_ascii :
    forall s, is_ascii s = true -> str_lower s = map ascii_lower_char s;
  chr_isupper_ascii :
    forall c, N.ltb c 128 = true -> chr_isupper c = ascii_isupper c;
  chr_isdigit_ascii :
    forall c, N.ltb c 128 = true -> chr_isdigit c = ascii_isdigit c;
  chr_isspace_ascii :
    forall c, N.ltb c 128 = true -> chr_isspace c = ascii_isspace c;
  py_format_str : forall s, py_format (JStr s) = s
}.

(** The builtins restricted to ASCII: characters above 127 are neither
    cased, digits nor spaces, and only [None], booleans, integers, floats
    and strings are formatted faithfully. *)
Definition ascii_format (v : json) : pystr :=
  match v with
  | JNull => u "None"
  | JBool true => u "True"
  | JBool false => u "False"
  | JInt z => if Z.ltb z 0 then u "-" ++ decimal (Z.to_N (- z)) else decimal (Z.to_N z)
  | JFloat _ t => t
  | JStr s => s
  | JArr _ => u "[...]"
  | JObj _ => u "{...}"
  end.

Definition ascii_builtins : PyBuiltins :=
  {| str_lower := map ascii_lower_char;
     chr_isupper := fun c => N.ltb c 128 && ascii_isupper c;
     chr_isdigit := fun c => N.ltb c 128 && ascii_isdigit c;
     chr_isspace := fun c => N.ltb c 128 && ascii_isspace c;
     py_format := ascii_format;
     str_lower_ascii := fun s _ => eq_refl;
     chr_isupper_ascii := fun c H => f_equal (fun b => b && ascii_isupper c) H;
     chr_isdigit_ascii := fun c H => f_equal (fun b => b && ascii_isdigit c) H;
     chr_isspace_ascii := fun c H => f_equal (fun b => b && ascii_isspace c) H;
     py_format_str := fun s => eq_refl |}.

(** ** [_extract_acceptance_criteria] *)

(** How a turn of the loop over the lines ends. *)
Inductive flow : Type :=
| Next (in_criteria_section : bool) (criteria : list pystr)
| Break.

Section Extraction.

Variable B : PyBuiltins.

(** [s.strip()] *)
Definition strip (s : pystr) : pystr :=
  rev (drop_while (chr_isspace B) (rev (drop_while (chr_isspace B) s))).

(** The argument of the first [lstrip]: U+2022, [-], [*], U+2192, U+25BA,
    U+25AA, U+25B8 and the space. *)
Definition bullet_chars : pystr :=
  [8226; 45; 42; 8594; 9658; 9642; 9656; 32]%N.

Definition numbering_chars : pystr := u "0123456789.)".

(** [line and line[0].isupper()] *)
Definition starts_upper (line : pystr) : bool :=
  match line with
  | [] => false
  | c :: _ => chr_isupper B c
  end.

(** [cleaned and cleaned[0].isdigit()] *)
Definition starts_digit (s : pystr) : bool :=
  match s with
  | [] => false
  | c :: _ => chr_isdigit B c
  end.

Definition nonempty (s : pystr) : bool :=
  match s with [] => false | _ :: _ => true end.

(** The test of line 234, on the stripped line. *)
Definition is_marker (line : pystr) : bool :=
  contains (u "acceptance criteria") (str_lower B line)
  || contains (u "acceptance") (str_lower B line).

(** The test of line 239. *)
Definition is_section_end (in_criteria_section : bool) (line : pystr) : bool :=
  in_criteria_section && nonempty line && starts_upper line
  && contains (u ":") line.

(** Lines 245 to 248. *)
Definition clean_line (line : pystr) : pystr :=
  let cleaned := lstrip_chars bullet_chars line in
  let cleaned :=
    if starts_digit cleaned then lstrip_chars numbering_chars cleaned
    else cleaned in
  strip cleaned.

(** One turn of the [for] loop of lines 231 to 250: the loop goes on with
    a new state, or it is left by [break]. *)
Definition criteria_step (in_criteria_section : bool)
    (criteria : list pystr) (raw : pystr) : flow :=
  let line := strip raw in
  if is_marker line then Next true criteria
  else if is_section_end in_criteria_section line then Break
  else if in_criteria_section && nonempty line then
    let cleaned := clean_line line in
    if nonempty cleaned
    then Next in_criteria_section (criteria ++ [cleaned])
    else Next in_criteria_section criteria
  else Next in_criteria_section criteria.

(** The loop, from a given state. *)
Fixpoint criteria_loop (lines : list pystr) (in_criteria_section : bool)
    (criteria : list pystr) : list pystr :=
  match lines with
  | [] => criteria
  | raw :: rest =>
      match criteria_step in_criteria_section criteria raw with
      | Next in_criteria_section criteria =>
          criteria_loop rest in_criteria_section criteria
      | Break => criteria
      end
  end.

(** The state of the loop once it has gone through the given lines. *)
Fixpoint state_after (lines : list pystr) (in_criteria_section : bool)
    (criteria : list pystr) : flow :=
  match lines with
  | [] => Next in_criteria_section criteria
  | raw :: rest =>
      match criteria_step in_criteria_section criteria raw with
      | Next in_criteria_section criteria =>
          state_after rest in_criteria_section criteria
      | Break => Break
      end
  end.

(** [description.split] exists on a [str] only. *)
Definition _extract_acceptance_criteria (description : json)
    : result (list pystr) :=
  match description with
  | JStr s => Ok (criteria_loop (split_on 10 s) false [])
  | _ => Raise AttributeError
  end.

End Extraction.

(** ** [_extract_text_from_adf] *)

(** A [for] loop whose body threads a state and may raise. *)
Fixpoint for_each {A S : Type} (body : A -> S -> result S) (l : list A)
    (s : S) : result S :=
  match l with
  | [] => Ok s
  | a :: l' =>
      match body a s with
      | Ok s' => for_each body l' s'
      | Raise e => Raise e
      end
  end.

(** [text_parts and text_parts[-1] != '\n'] *)
Definition needs_break (text_parts : list json) : bool :=
  match rev text_parts with
  | [] => false
  | last :: _ => negb (is_str newline last)
  end.

(** Lines 199 to 204: what visiting a dict appends to [text_parts]. *)
Definition visit (node : list (pystr * json)) (text_parts : list json)
    : list json :=
  match dict_get node (u "type") with
  | Some ty =>
      if is_str (u "text") ty
      then text_parts ++ [dict_get_default node (u "text") (JStr [])]
      else if is_str (u "paragraph") ty || is_str (u "heading") ty
      then if needs_break text_parts
           then text_parts ++ [JStr newline]
           else text_parts
      else text_parts
  | None => text_parts
  end.

(** The nested function [traverse], with [text_parts] passed along.
    [for child in content] visits the items of a list; over a [str] or a
    [dict] it visits strings, on which [traverse] does nothing; anything
    else is not iterable. The limit of the interpreter on the depth of the
    recursion is not part of the model. *)
Fixpoint traverse (node : json) (text_parts : list json)
    : result (list json) :=
  match node with
  | JObj fields =>
      let text_parts := visit fields text_parts in
      (fix content_of (items : list (pystr * json)) : result (list json) :=
         match items with
         | [] => Ok text_parts
         | (k, content) :: rest =>
             if pystr_eqb k (u "content") then
               match content with
               | JArr children => for_each traverse children text_parts
               | JStr _ | JObj _ => Ok text_parts
               | JNull | JBool _ | JInt _ | JFloat _ _ => Raise TypeError
               end
             else content_of rest
         end) fields
  | JArr items => for_each traverse items text_parts
  | _ => Ok text_parts
  end.

(** [' '.join(text_parts)]: every part has to be a [str]. *)
Fixpoint all_strings (parts : list json) : result (list pystr) :=
  match parts with
  | [] => Ok []
  | JStr s :: rest => ss <- all_strings rest ;; Ok (s :: ss)
  | _ :: _ => Raise TypeError
  end.

Definition _extract_text_from_adf (B : PyBuiltins) (adf_doc : json)
    : result pystr :=
  if negb (is_dict adf_doc) then Ok (py_format B adf_doc)
  else
    text_parts <- traverse adf_doc [] ;;
    parts <- all_strings text_parts ;;
    Ok (strip B (join (u " ") parts)).

(** ** [transform_to_prd_format] *)

Record UserStory : Type := {
  id : json;
  title : json;
  description : json;
  acceptanceCriteria : list pystr;
  priority : Z;
  passes : bool;
  notes : pystr
}.

Record PRD : Type := {
  project : pystr;
  branchName : pystr;
  prdDescription : pystr;
  userStories : list UserStory
}.

(** The dict [priority_map] of lines 118 to 124. *)
Definition priority_map : list (pystr * Z) :=
  [(u "highest", 1); (u "high", 2); (u "medium", 3); (u "low", 4);
   (u "lowest", 5)]%Z.

Fixpoint table_lookup (table : list (pystr * Z)) (k : pystr) : option Z :=
  match table with
  | [] => None
  | (k', v) :: rest => if pystr_eqb k' k then Some v else table_lookup rest k
  end.

(** [priority_map.get(priority_name, idx)] *)
Definition priority_map_get (priority_name : pystr) (idx : Z) : Z :=
  match table_lookup priority_map priority_name with
  | Some p => p
  | None => idx
  end.

(** [status in ['done', 'closed', 'resolved', 'completed']] *)
Definition is_done (status : pystr) : bool :=
  existsb (pystr_eqb status)
    [u "done"; u "closed"; u "resolved"; u "completed"].

Definition default_criteria (B : PyBuiltins) (title : json) : list pystr :=
  [u "Implement " ++ py_format B title;
   u "Code passes all tests";
   u "Documentation updated"].

Section Transform.

Variable B : PyBuiltins.

(** [v.get('name', default).lower()], for a value [v] that has to be a dict
    and a name that has to be a [str]. *)
Definition name_lower (v : json) (default : pystr) : result pystr :=
  match v with
  | JObj items =>
      match dict_get_default items (u "name") (JStr default) with
      | JStr s => Ok (str_lower B s)
      | _ => Raise AttributeError
      end
  | _ => Raise AttributeError
  end.

(** Lines 134 to 139. *)
Definition resolve_description (fields : list (pystr * json)) (title : json)
    : result json :=
  let description_obj := dict_get_default fields (u "description") (JObj []) in
  if is_dict description_obj then
    text <- _extract_text_from_adf B description_obj ;; Ok (JStr text)
  else if truthy description_obj then Ok description_obj
  else Ok (JStr (u "Implement " ++ py_format B title)).

(** Lines 151 to 153. *)
Definition resolve_priority (fields : list (pystr * json)) (idx : nat)
    : result Z :=
  let priority_obj := dict_get_default fields (u "priority") (JObj []) in
  priority_name <-
    (if truthy priority_obj then name_lower priority_obj (u "medium")
     else Ok (u "medium")) ;;
  Ok (priority_map_get priority_name (Z.of_nat idx)).

(** The body of the loop of lines 126 to 169, for the ticket at the 1-based
    position [idx]. *)
Definition transform_ticket (idx : nat) (ticket : json) : result UserStory :=
  match ticket with
  | JObj items =>
      let key :=
        dict_get_default items (u "key")
          (JStr (u "US-" ++ pad3 (N.of_nat idx))) in
      match dict_get_default items (u "fields") (JObj []) with
      | JObj fields =>
          let title := dict_get_default fields (u "summary") (JStr (u "Untitled")) in
          description <- resolve_description fields title ;;
          extracted <- _extract_acceptance_criteria B description ;;
          let acceptance_criteria :=
            match extracted with
            | [] => default_criteria B title
            | _ :: _ => extracted
            end in
          priority_num <- resolve_priority fields idx ;;
          status <-
            name_lower (dict_get_default fields (u "status") (JObj [])) [] ;;
          Ok {| id := key;
                title := title;
                description := description;
                acceptanceCriteria := acceptance_criteria;
                priority := priority_num;
                passes := is_done status;
                notes := [] |}
      | _ => Raise AttributeError
      end
  | _ => Raise AttributeError
  end.

(** [for idx, ticket in enumerate(tickets, start=1)], from position [idx]. *)
Fixpoint transform_loop (idx : nat) (tickets : list json)
    : result (list UserStory) :=
  match tickets with
  | [] => Ok []
  | ticket :: rest =>
      story <- transform_ticket idx ticket ;;
      stories <- transform_loop (S idx) rest ;;
      Ok (story :: stories)
  end.

(** [s.replace(' ', '-')] *)
Definition replace_spaces (s : pystr) : pystr :=
  map (fun c => if N.eqb c 32 then 45%N else c) s.

(** [x or default], for an optional string argument. *)
Definition or_default (x : option pystr) (default : pystr) : pystr :=
  match x with
  | Some (c :: s) => c :: s
  | Some [] | None => default
  end.

Definition transform_to_prd_format (tickets : list json)
    (project_name : pystr) (branch_name project_description : option pystr)
    : result PRD :=
  user_stories <- transform_loop 1 tickets ;;
  Ok {| project := project_name;
        branchName :=
          or_default branch_name
            (u "feature/" ++ replace_spaces (str_lower B project_name));
        prdDescription :=
          or_default project_description
            (u "JIRA tickets for project " ++ project_name);
        userStories := user_stories |}.

End Transform.

(** ** [fetch_all_tickets] *)

(** The parameters of a search request that vary; the URL, the headers, the
    credentials, the field list and the timeout are the same for every
    request of a run. *)
Record request : Type := {
  jql : pystr;
  startAt : Z;
  maxResults : Z
}.

(** What [requests.get] followed by [raise_for_status] and [json] gives:
    a [RequestException], with the text of its response when it has one, or
    the decoded body, of which the code reads the keys [issues] (a list) and
    [total] (an integer), either of which may be missing. *)
Inductive response : Type :=
| Failed (text : option pystr)
| Page (issues : option (list json)) (total : option Z).

Inductive message : Type :=
| MsgFetching (project_key : pystr)
| MsgProgress (fetched : nat)
| MsgTotal (fetched : nat)
| MsgRequestError
| MsgResponseText (text : pystr)
| MsgPageSize
| MsgSaved (path : pystr) (project_name : pystr) (stories : nat)
| MsgWriteError.

Inductive event : Type :=
| Print (m : message)
| Get (r : request)
| WriteFile (path : pystr) (prd : PRD).

(** How a call ends: it returns, or [sys.exit] is called. *)
Inductive outcome (A : Type) : Type :=
| Returned (a : A)
| Exited (code : Z).
Arguments Returned {A} a.
Arguments Exited {A} code.

(** [data.get('issues', [])] and [data.get('total', 0)] *)
Definition issues_of (r : response) : list json :=
  match r with
  | Page (Some l) _ => l
  | _ => []
  end.
Definition total_of (r : response) : Z :=
  match r with
  | Page _ (Some t) => t
  | _ => 0%Z
  end.

Definition with_events {A} (evs : list event)
    (r : option (list event * A)) : option (list event * A) :=
  match r with
  | Some (evs', a) => Some (evs ++ evs', a)
  | None => None
  end.

Section Fetcher.

(** The server: its answer to the request number [n] of the run. *)
Variable server : nat -> request -> response.

Variable query : pystr.
Variable max_results : Z.

(** The [while True] loop of lines 57 to 96, entered for the request number
    [n] with the given cursor and accumulator. *)
Fixpoint fetch_loop (fuel n : nat) (start_at : Z) (all_issues : list json)
    : option (list event * outcome (list json)) :=
  match fuel with
  | O => None
  | S fuel' =>
      let rq := {| jql := query; startAt := start_at;
                   maxResults := max_results |} in
      match server n rq with
      | Failed text =>
          Some ([Get rq; Print MsgRequestError]
                  ++ match text with
                     | Some t => [Print (MsgResponseText t)]
                     | None => []
                     end,
                Exited 1)
      | Page _ _ as data =>
          match issues_of data with
          | [] => Some ([Get rq], Returned all_issues)
          | (_ :: _) as issues =>
              let all_issues := all_issues ++ issues in
              let progress := [Get rq; Print (MsgProgress (length all_issues))] in
              if (start_at + Z.of_nat (length issues) >=? total_of data)%Z
              then Some (progress, Returned all_issues)
              else with_events progress
                     (fetch_loop fuel' (S n)
                        (start_at + Z.of_nat (length issues))%Z all_issues)
          end
      end
  end.

End Fetcher.

Definition project_query (project_key : pystr) : pystr :=
  u "project = " ++ project_key ++ u " ORDER BY created DESC".

Definition fetch_all_tickets (server : nat -> request -> response)
    (project_key : pystr) (max_results : Z) (fuel : nat)
    : option (list event * outcome (list json)) :=
  match fetch_loop server (project_query project_key) max_results fuel 0 0 [] with
  | Some (evs, Returned all_issues) =>
      Some (Print (MsgFetching project_key) :: evs
              ++ [Print (MsgTotal (length all_issues))],
            Returned all_issues)
  | Some (evs, Exited code) =>
      Some (Print (MsgFetching project_key) :: evs, Exited code)
  | None => None
  end.

(** ** [main] *)

Record arguments : Type := {
  arg_url : pystr;
  arg_email : pystr;
  arg_token : pystr;
  arg_project : pystr;
  arg_project_name : option pystr;
  arg_branch_name : option pystr;
  arg_project_description : option pystr;
  arg_output : pystr;
  arg_max_results : Z
}.

(** How the process ends: with an exit status, or on an exception nobody
    catches. *)
Inductive termination : Type :=
| ExitStatus (code : Z)
| Uncaught (e : pyerror).

(** [main] after [parse_args]. [writable] tells whether opening the output
    file and writing to it succeeds. *)
Definition main (B : PyBuiltins) (server : nat -> request -> response)
    (writable : pystr -> bool) (args : arguments) (fuel : nat)
    : option (list event * termination) :=
  if (arg_max_results args <? 1)%Z || (arg_max_results args >? 100)%Z
  then Some ([Print MsgPageSize], ExitStatus 1)
  else
    match fetch_all_tickets server (arg_project args) (arg_max_results args) fuel with
    | None => None
    | Some (evs, Exited code) => Some (evs, ExitStatus code)
    | Some (evs, Returned tickets) =>
        let project_name :=
          or_default (arg_project_name args) (arg_project args) in
        match transform_to_prd_format B tickets project_name
                (arg_branch_name args) (arg_project_description args) with
        | Raise e => Some (evs, Uncaught e)
        | Ok prd_data =>
            if writable (arg_output args)
            then Some (evs ++ [WriteFile (arg_output args) prd_data;
                               Print (MsgSaved (arg_output args)
                                        (project prd_data)
                                        (length (userStories prd_data)))],
                       ExitStatus 0)
            else Some (evs ++ [Print MsgWriteError], ExitStatus 1)
        end
    end.

(** ** The inputs of the examples *)

(** Lines of ASCII text, joined by newlines. *)
Definition text_of_lines (lines : list string) : pystr :=
  join newline (map u lines).

Definition criteria_example : pystr :=
  text_of_lines
    ["Some intro."; "Acceptance Criteria:"; "- Do the thing";
     "2) Do another thing"; "Notes: ignore this"]%string.

Definition reentry_example : pystr :=
  text_of_lines
    ["Acceptance Criteria:"; "- first"; "acceptance tests pass";
     "- second"]%string.

(** The same without its third line. *)
Definition reentry_shortened : pystr :=
  text_of_lines ["Acceptance Criteria:"; "- first"; "- second"]%string.

Definition text_node (s : string) : json :=
  JObj [(u "type", JStr (u "text")); (u "text", JStr (u s))].

Definition paragraph_node (children : list json) : json :=
  JObj [(u "type", JStr (u "paragraph")); (u "content", JArr children)].

(** [{"type": "doc", "version": 1, "content": [<p>Hello</p>, <p>World</p>]}] *)
Definition hello_world_doc : json :=
  JObj [(u "type", JStr (u "doc"));
        (u "version", JInt 1);
        (u "content",
         JArr [paragraph_node [text_node "Hello"];
               paragraph_node [text_node "World"]])].

(** ** The shape of a raw issue the code expects *)

Definition is_string (v : json) : bool :=
  match v with JStr _ => true | _ => false end.

(** A text node carries a string. *)
Definition text_ok (node : list (pystr * json)) : bool :=
  match dict_get node (u "type") with
  | Some ty =>
      if is_str (u "text") ty
      then is_string (dict_get_default node (u "text") (JStr []))
      else true
  | None => true
  end.

(** A document in which every [content] can be iterated and every text
    node carries a string. *)
Fixpoint adf_ok (node : json) : bool :=
  match node with
  | JObj fields =>
      text_ok fields
      && (fix content_ok (items : list (pystr * json)) : bool :=
            match items with
            | [] => true
            | (k, content) :: rest =>
                if pystr_eqb k (u "content") then
                  match content with
                  | JArr children => forallb adf_ok children
                  | JStr _ | JObj _ => true
                  | JNull | JBool _ | JInt _ | JFloat _ _ => false
                  end
                else content_ok rest
            end) fields
  | JArr items => forallb adf_ok items
  | _ => true
  end.

(** A dict whose [name] is missing or a string. *)
Definition name_ok (v : json) : bool :=
  match v with
  | JObj items =>
      match dict_get items (u "name") with
      | Some (JStr _) | None => true
      | Some _ => false
      end
  | _ => false
  end.

(** A description that is a document, a string, or false as a condition. *)
Definition description_ok (d : json) : bool :=
  match d with
  | JObj _ => adf_ok d
  | JStr _ => true
  | _ => negb (truthy d)
  end.

(** A raw issue with every consumed field missing or of the expected
    shape: [fields], [priority] and [status] are dicts ([priority] may also
    be [null] or any other value false as a condition), the names in them
    are strings, the description is as above. *)
Definition well_shaped (ticket : json) : bool :=
  match ticket with
  | JObj items =>
      match dict_get_default items (u "fields") (JObj []) with
      | JObj fields =>
          description_ok (dict_get_default fields (u "description") (JObj []))
          && (let p := dict_get_default fields (u "priority") (JObj []) in
              negb (truthy p) || name_ok p)
          && name_ok (dict_get_default fields (u "status") (JObj []))
      | _ => false
      end
  | _ => false
  end.

(** [ticket['key']], when the ticket is a dict with that key. *)
Definition key_field (ticket : json) : option json :=
  match ticket with
  | JObj items => dict_get items (u "key")
  | _ => None
  end.

(** [ticket['fields'][k]], when it is there. *)
Definition field (ticket : json) (k : pystr) : option json :=
  match ticket with
  | JObj items =>
      match dict_get items (u "fields") with
      | Some (JObj fields) => dict_get fields k
      | _ => None
      end
  | _ => None
  end.

(** The raw priority label [fields.priority.name], when the issue has
    one. *)
Definition priority_label (ticket : json) : option pystr :=
  match field ticket (u "priority") with
  | Some (JObj p) =>
      match dict_get p (u "name") with
      | Some (JStr label) => Some label
      | _ => None
      end
  | _ => None
  end.

(** [{"key": key, "fields": {"summary": summary, ...}}] *)
Definition issue (key summary : string) (more : list (pystr * json)) : json :=
  JObj [(u "key", JStr (u key));
        (u "fields", JObj ((u "summary", JStr (u summary)) :: more))].

Definition named (label : string) : json :=
  JObj [(u "name", JStr (u label))].

(** An issue without a priority. *)
Definition plain_issue : json := issue "PROJ-1" "Add login" [].

(** An issue whose priority is the label itself instead of an object. *)
Definition flat_priority_issue : json :=
  issue "PROJ-2" "Add logout" [(u "priority", JStr (u "High"))].

(** An issue with the priority ["urgent"]. *)
Definition urgent_issue : json :=
  issue "PROJ-7" "Fix outage" [(u "priority", named "urgent")].

(** An issue whose key is [null]. *)
Definition null_key_issue : json :=
  JObj [(u "key", JNull);
        (u "fields", JObj [(u "summary", JStr (u "Add login"))])].

(** Six issues without a priority, then one with the priority ["urgent"]. *)
Definition seven_issues : list json :=
  repeat plain_issue 6 ++ [urgent_issue].

Definition empty_prd : PRD :=
  {| project := []; branchName := []; prdDescription := []; userStories := [] |}.

(** The document of a transformation that did not raise. *)
Definition prd_of (r : result PRD) : PRD :=
  match r with
  | Ok prd => prd
  | Raise _ => empty_prd
  end.

Definition example_prd (tickets : list json) : PRD :=
  prd_of (transform_to_prd_format ascii_builtins tickets (u "PROJ") None None).

Definition blank_story : UserStory :=
  {| id := JNull; title := JNull; description := JNull;
     acceptanceCriteria := []; priority := 0; passes := false; notes := [] |}.

(** The story at the 0-based position [i] of a document. *)
Definition story_at (prd : PRD) (i : nat) : UserStory :=
  nth i (userStories prd) blank_story.

(** ** Runs of the fetcher *)

(** The requests of a run, in the order they were sent. *)
Fixpoint requests_of (evs : list event) : list request :=
  match evs with
  | [] => []
  | Get rq :: rest => rq :: requests_of rest
  | _ :: rest => requests_of rest
  end.

(** The answers of the server to the requests [rqs], the first of which is
    the request number [n] of the run. *)
Fixpoint answers (server : nat -> request -> response) (n : nat)
    (rqs : list request) : list response :=
  match rqs with
  | [] => []
  | rq :: rest => server n rq :: answers server (S n) rest
  end.

(** A page without issues. *)
Definition is_empty_page (r : response) : bool :=
  match r with
  | Page _ _ => match issues_of r with [] => true | _ :: _ => false end
  | Failed _ => false
  end.

(** Every request starts where the pages received so far end. *)
Fixpoint cursor_chain (server : nat -> request -> response) (n : nat)
    (start : Z) (rqs : list request) : Prop :=
  match rqs with
  | [] => True
  | rq :: rest =>
      startAt rq = start
      /\ cursor_chain server (S n)
           (start + Z.of_nat (length (issues_of (server n rq))))%Z rest
  end.

(** A server that holds the issues [db] of the project in query order,
    reports their number as the total, and answers a request with the
    issues from [startAt] on, at most [maxResults] of them and at most
    [cap n] for the request number [n]. *)
Definition paged_server (db : list json) (cap : nat -> nat) (n : nat)
    (rq : request) : response :=
  Page
    (Some (firstn (Nat.min (cap n) (Z.to_nat (maxResults rq)))
             (skipn (Z.to_nat (startAt rq)) db)))
    (Some (Z.of_nat (length db))).

(** The quotient rounded up. *)
Definition ceil_div (a b : nat) : nat := (a + b - 1) / b.

Definition numbered_issues (n : nat) : list json :=
  map (fun i => JObj [(u "key", JStr (u "PROJ-" ++ decimal (N.of_nat i)))])
    (seq 1 n).

(** A server with ten issues in its total that serves one issue per page
    twice and then an empty page. *)
Definition stalling_server (n : nat) (rq : request) : response :=
  if Nat.ltb n 2 then Page (Some [plain_issue]) (Some 10%Z)
  else Page (Some []) (Some 10%Z).

(** The command line of the examples, with a given page size. *)
Definition example_args (max_results : Z) : arguments :=
  {| arg_url := u "https://example.atlassian.net";
     arg_email := u "dev@example.com";
     arg_token := u "token";
     arg_project := u "PROJ";
     arg_project_name := None;
     arg_branch_name := None;
     arg_project_description := None;
     arg_output := u "prd.json";
     arg_max_results := max_results |}.

(** The message of line 316. *)
Definition is_page_size_error (ev : event) : bool :=
  match ev with
  | Print MsgPageSize => true
  | _ => false
  end.

(** ** Induction on JSON values *)

(** Induction on a JSON value, with the items of lists and dicts covered. *)
Section JsonInduction.

Variable P : json -> Prop.
Hypothesis HNull : P JNull.
Hypothesis HBool : forall b, P (JBool b).
Hypothesis HInt : forall z, P (JInt z).
Hypothesis HFloat : forall nz t, P (JFloat nz t).
Hypothesis HStr : forall s, P (JStr s).
Hypothesis HArr : forall items, Forall P items -> P (JArr items).
Hypothesis HObj :
  forall items, Forall (fun kv => P (snd kv)) items -> P (JObj items).

Fixpoint json_induction (v : json) : P v :=
  match v with
  | JNull => HNull
  | JBool b => HBool b
  | JInt z => HInt z
  | JFloat nz t => HFloat nz t
  | JStr s => HStr s
  | JArr items =>
      HArr ((fix all (l : list json) : Forall P l :=
               match l with
               | [] => Forall_nil _
               | x :: l' => Forall_cons x (json_induction x) (all l')
               end) items)
  | JObj items =>
      HObj ((fix all (l : list (pystr * json))
               : Forall (fun kv => P (snd kv)) l :=
               match l with
               | [] => Forall_nil _
               | kv :: l' =>
                   Forall_cons kv (json_induction (snd kv)) (all l')
               end) items)
  end.

End JsonInduction.

Definition strings_only (parts : list json) : bool := forallb is_string parts.

(** What a traversal that went through says of the node: the parts grow at
    the end, and when they are all strings the node is well formed. *)
Definition traversed (node : json) : Prop :=
  forall parts parts',
    traverse node parts = Ok parts' ->
    (exists added, parts' = parts ++ added)
    /\ (strings_only parts' = true -> adf_ok node = true).

(** ** More on the runs of the fetcher and of [main] *)

Definition is_failure (r : response) : bool :=
  match r with
  | Failed _ => true
  | Page _ _ => false
  end.

(** The files written in a run, in order. *)
Fixpoint writes_of (evs : list event) : list (pystr * PRD) :=
  match evs with
  | [] => []
  | WriteFile path prd :: rest => (path, prd) :: writes_of rest
  | _ :: rest => writes_of rest
  end.

(** The counts of the progress messages of a run, in order. *)
Fixpoint progress_of (evs : list event) : list nat :=
  match evs with
  | [] => []
  | Print (MsgProgress fetched) :: rest => fetched :: progress_of rest
  | _ :: rest => progress_of rest
  end.

(** The sizes of the accumulator after each non-empty page, from the size
    [fetched]. *)
Fixpoint running_totals (fetched : nat) (pages : list response) : list nat :=
  match pages with
  | [] => []
  | r :: rest =>
      match issues_of r with
      | [] => running_totals fetched rest
      | (_ :: _) as issues =>
          (fetched + length issues) :: running_totals (fetched + length issues) rest
      end
  end.

(** A server that serves one page of one issue and then fails. *)
Definition failing_server (n : nat) (rq : request) : response :=
  if Nat.ltb n 1 then Page (Some [plain_issue]) (Some 10%Z)
  else Failed (Some (u "Service Unavailable")).

(** The events of a run, nothing when the fuel does not suffice. *)
Definition events_of {A : Type} (run : option (list event * A)) : list event :=
  match run with
  | Some (evs, _) => evs
  | None => []
  end.

(** The run of the examples against the stalling server. *)
Definition stalling_events : list event :=
  events_of (fetch_all_tickets stalling_server (u "PROJ") 50 5).

(** A server for a project without issues. *)
Definition empty_server (n : nat) (rq : request) : response :=
  Page (Some []) (Some 0%Z).

(** ** More on the fields of a raw issue *)

(** The raw status label [fields.status.name], when the issue has one. *)
Definition status_label (ticket : json) : option pystr :=
  match field ticket (u "status") with
  | Some (JObj st) =>
      match dict_get st (u "name") with
      | Some (JStr label) => Some label
      | _ => None
      end
  | _ => None
  end.

(** The statuses that count as done, as on line 157. *)
Definition done_statuses : list pystr :=
  [u "done"; u "closed"; u "resolved"; u "completed"].

(** An issue that is closed, with a plain description. *)
Definition closed_issue : json :=
  issue "PROJ-3" "Export report"
    [(u "description", JStr (u "Users can export the report."));
     (u "status", named "Closed")].

(** ** More on the extracted texts *)

(** A text without white space at either end. *)
Definition trimmed (B : PyBuiltins) (s : pystr) : Prop :=
  s <> []
  /\ chr_isspace B (hd 0%N s) = false
  /\ chr_isspace B (last s 0%N) = false.

(** A contiguous piece of a text. *)
Definition piece_of (c s : pystr) : Prop :=
  exists before rest, s = before ++ c ++ rest.

(** A description with a second criteria section after the end of the
    first. *)
Definition two_sections_example : pystr :=
  text_of_lines
    ["Acceptance Criteria:"; "- first"; "Notes: see below";
     "Acceptance tests:"; "- second"]%string.

(** [{"type": "text", "text": s}] *)
Definition text_leaf (s : pystr) : json :=
  JObj [(u "type", JStr (u "text")); (u "text", JStr s)].

(** A document whose [content] is [null]. *)
Definition broken_doc : json :=
  JObj [(u "type", JStr (u "doc")); (u "content", JNull)].

(** ** [JiraFetcher.__init__] *)

(** [s.rstrip(chars)] *)
Definition rstrip_chars (chars s : pystr) : pystr :=
  rev (drop_while (char_in chars) (rev s)).

(** The attributes of a [JiraFetcher]; [auth] is the pair handed to
    [HTTPBasicAuth]. *)
Record JiraFetcher : Type := {
  jira_url : pystr;
  auth : pystr * pystr;
  headers : list (pystr * pystr)
}.

Definition JiraFetcher_init (url email api_token : pystr) : JiraFetcher :=
  {| jira_url := rstrip_chars (u "/") url;
     auth := (email, api_token);
     headers := [(u "Accept", u "application/json");
                 (u "Content-Type", u "application/json")] |}.

(** The [url] of line 58. *)
Definition search_url (self : JiraFetcher) : pystr :=
  jira_url self ++ u "/rest/api/2/search".

(** ** Reading a number back *)

(** The number a string of decimal digits stands for. *)
Definition parse_decimal (s : pystr) : N :=
  fold_left (fun v d => (v * 10 + (d - 48))%N) s 0%N.

Definition is_digit_char (c : N) : bool := N.leb 48 c && N.leb c 57.

(** * Properties *)

(** ** On ASCII text every choice of builtins gives the same result *)

Lemma is_ascii_spec (s : pystr) :
  is_ascii s = true <-> (forall c, In c s -> N.ltb c 128 = true).
Proof. unfold is_ascii. apply forallb_forall. Qed.

Lemma is_ascii_app (s t : pystr) :
  is_ascii (s ++ t) = is_ascii s && is_ascii t.
Proof. unfold is_ascii. apply forallb_app. Qed.

Lemma is_ascii_rev (s : pystr) : is_ascii s = true -> is_ascii (rev s) = true.
Proof.
  rewrite !is_ascii_spec. intros H c Hc. apply H. now apply in_rev.
Qed.

Lemma drop_while_ext (p q : N -> bool) (s : pystr) :
  (forall c, In c s -> p c = q c) -> drop_while p s = drop_while q s.
Proof.
  induction s as [|c s IH]; intros H; simpl; [reflexivity|].
  rewrite <- (H c (or_introl eq_refl)).
  destruct (p c); [|reflexivity].
  apply IH. intros d Hd. apply H. now right.
Qed.

Lemma drop_while_incl (p : N -> bool) (s : pystr) (c : N) :
  In c (drop_while p s) -> In c s.
Proof.
  induction s as [|d s IH]; simpl; [tauto|].
  destruct (p d); [intros H; right; now apply IH | trivial].
Qed.

Lemma drop_while_ascii (p : N -> bool) (s : pystr) :
  is_ascii s = true -> is_ascii (drop_while p s) = true.
Proof.
  rewrite !is_ascii_spec. intros H c Hc. apply H.
  now apply drop_while_incl with p.
Qed.

Section CriteriaFacts.

Variable B : PyBuiltins.

Lemma isspace_agrees (s : pystr) :
  is_ascii s = true ->
  forall c, In c s -> chr_isspace B c = chr_isspace ascii_builtins c.
Proof.
  intros Hs c Hc. apply is_ascii_spec with (c := c) in Hs; [|exact Hc].
  now rewrite (chr_isspace_ascii B), (chr_isspace_ascii ascii_builtins).
Qed.

Lemma strip_ascii (s : pystr) :
  is_ascii s = true -> strip B s = strip ascii_builtins s.
Proof.
  intros Hs. unfold strip.
  rewrite (drop_while_ext (chr_isspace B) (chr_isspace ascii_builtins) s)
    by now apply isspace_agrees.
  f_equal. apply drop_while_ext, isspace_agrees.
  now apply is_ascii_rev, drop_while_ascii.
Qed.

Lemma strip_is_ascii (A : PyBuiltins) (s : pystr) :
  is_ascii s = true -> is_ascii (strip A s) = true.
Proof.
  intros Hs. unfold strip.
  now apply is_ascii_rev, drop_while_ascii, is_ascii_rev, drop_while_ascii.
Qed.

Lemma starts_upper_ascii (s : pystr) :
  is_ascii s = true -> starts_upper B s = starts_upper ascii_builtins s.
Proof.
  destruct s as [|c s]; [reflexivity|]. intros H.
  apply andb_prop in H as [Hc _]. cbn [starts_upper].
  now rewrite (chr_isupper_ascii B), (chr_isupper_ascii ascii_builtins).
Qed.

Lemma starts_digit_ascii (s : pystr) :
  is_ascii s = true -> starts_digit B s = starts_digit ascii_builtins s.
Proof.
  destruct s as [|c s]; [reflexivity|]. intros H.
  apply andb_prop in H as [Hc _]. cbn [starts_digit].
  now rewrite (chr_isdigit_ascii B), (chr_isdigit_ascii ascii_builtins).
Qed.

Lemma is_marker_ascii (s : pystr) :
  is_ascii s = true -> is_marker B s = is_marker ascii_builtins s.
Proof.
  intros H. unfold is_marker.
  now rewrite (str_lower_ascii B), (str_lower_ascii ascii_builtins).
Qed.

Lemma clean_line_ascii (s : pystr) :
  is_ascii s = true -> clean_line B s = clean_line ascii_builtins s.
Proof.
  intros H. unfold clean_line, lstrip_chars.
  assert (H1 : is_ascii (drop_while (char_in bullet_chars) s) = true)
    by now apply drop_while_ascii.
  rewrite (starts_digit_ascii _ H1).
  apply strip_ascii.
  destruct (starts_digit ascii_builtins _); [now apply drop_while_ascii | exact H1].
Qed.

Lemma criteria_step_ascii (in_section : bool) (criteria : list pystr)
    (raw : pystr) :
  is_ascii raw = true ->
  criteria_step B in_section criteria raw
  = criteria_step ascii_builtins in_section criteria raw.
Proof.
  intros Hraw.
  assert (Hl : is_ascii (strip ascii_builtins raw) = true)
    by now apply strip_is_ascii.
  unfold criteria_step, is_section_end. rewrite (strip_ascii raw Hraw).
  now rewrite (is_marker_ascii _ Hl), (starts_upper_ascii _ Hl),
    (clean_line_ascii _ Hl).
Qed.

Lemma criteria_loop_ascii (lines : list pystr) :
  forallb is_ascii lines = true ->
  forall (in_section : bool) (criteria : list pystr),
    criteria_loop B lines in_section criteria
    = criteria_loop ascii_builtins lines in_section criteria.
Proof.
  induction lines as [|raw rest IH]; intros H st cs; [reflexivity|].
  simpl in H. apply andb_prop in H as [Hraw Hrest].
  cbn [criteria_loop]. rewrite (criteria_step_ascii st cs raw Hraw).
  destruct (criteria_step ascii_builtins st cs raw); [now apply IH|reflexivity].
Qed.

Lemma state_after_ascii (lines : list pystr) :
  forallb is_ascii lines = true ->
  forall (in_section : bool) (criteria : list pystr),
    state_after B lines in_section criteria
    = state_after ascii_builtins lines in_section criteria.
Proof.
  induction lines as [|raw rest IH]; intros H st cs; [reflexivity|].
  simpl in H. apply andb_prop in H as [Hraw Hrest].
  cbn [state_after]. rewrite (criteria_step_ascii st cs raw Hraw).
  destruct (criteria_step ascii_builtins st cs raw); [now apply IH|reflexivity].
Qed.

(** The loop over a text in two parts goes on, after the first part, from
    the state reached there. *)
Lemma criteria_loop_app (before rest : list pystr) :
  forall (in_section : bool) (criteria : list pystr) (in_section' : bool)
         (criteria' : list pystr),
    state_after B before in_section criteria = Next in_section' criteria' ->
    criteria_loop B (before ++ rest) in_section criteria
    = criteria_loop B rest in_section' criteria'.
Proof.
  induction before as [|raw before IH]; intros st cs st' cs' H.
  - now injection H as <- <-.
  - cbn [state_after] in H. cbn [app criteria_loop].
    destruct (criteria_step B st cs raw) as [st1 cs1|]; [|discriminate H].
    now apply IH.
Qed.

Lemma state_after_app (before rest : list pystr) :
  forall (in_section : bool) (criteria : list pystr) (in_section' : bool)
         (criteria' : list pystr),
    state_after B before in_section criteria = Next in_section' criteria' ->
    state_after B (before ++ rest) in_section criteria
    = state_after B rest in_section' criteria'.
Proof.
  induction before as [|raw before IH]; intros st cs st' cs' H.
  - now injection H as <- <-.
  - cbn [state_after] in H. cbn [app state_after].
    destruct (criteria_step B st cs raw) as [st1 cs1|]; [|discriminate H].
    now apply IH.
Qed.

(** A line with the marker leaves an open section open and the criteria as
    they are. *)
Lemma marker_step (raw : pystr) (in_section : bool) (criteria : list pystr) :
  contains (u "acceptance") (str_lower B (strip B raw)) = true ->
  criteria_step B in_section criteria raw = Next true criteria.
Proof.
  intros H. unfold criteria_step, is_marker. rewrite H.
  now rewrite orb_true_r.
Qed.

End CriteriaFacts.

Lemma split_on_ascii (sep : N) (s : pystr) :
  is_ascii s = true -> forallb is_ascii (split_on sep s) = true.
Proof.
  induction s as [|c s IH]; [reflexivity|].
  simpl. intros H. apply andb_prop in H as [Hc Hs]. specialize (IH Hs).
  destruct (N.eqb c sep); [exact IH|].
  destruct (split_on sep s) as [|w ws]; simpl in *.
  - now rewrite Hc.
  - apply andb_prop in IH as [Hw Hws]. now rewrite Hc, Hw, Hws.
Qed.

Lemma extract_criteria_ascii (B : PyBuiltins) (s : pystr) :
  is_ascii s = true ->
  _extract_acceptance_criteria B (JStr s)
  = _extract_acceptance_criteria ascii_builtins (JStr s).
Proof.
  intros H. simpl. f_equal. now apply criteria_loop_ascii, split_on_ascii.
Qed.

Lemma extract_text_ascii (B : PyBuiltins) (doc : json) (parts : list json)
    (strings : list pystr) :
  is_dict doc = true ->
  traverse doc [] = Ok parts ->
  all_strings parts = Ok strings ->
  is_ascii (join (u " ") strings) = true ->
  _extract_text_from_adf B doc
  = Ok (strip ascii_builtins (join (u " ") strings)).
Proof.
  intros Hd Ht Hs Ha. unfold _extract_text_from_adf.
  rewrite Hd, Ht. simpl. rewrite Hs. simpl. now rewrite strip_ascii.
Qed.

(** ** Criteria extraction *)

(** C2: on the five-line description of the specification the extraction
    returns exactly the two criteria ["Do the thing"] and ["Do another
    thing"]; the scan is in the section with these two criteria after the
    fourth line, and the line ["Notes: ignore this"] ends it by [break]
    without being emitted. *)
Theorem C2_criteria_example (B : PyBuiltins) :
  _extract_acceptance_criteria B (JStr criteria_example)
  = Ok [u "Do the thing"; u "Do another thing"]
  /\ state_after B (firstn 4 (split_on 10 criteria_example)) false []
     = Next true [u "Do the thing"; u "Do another thing"]
  /\ nth_error (split_on 10 criteria_example) 4 = Some (u "Notes: ignore this")
  /\ criteria_step B true [u "Do the thing"; u "Do another thing"]
       (u "Notes: ignore this") = Break.
Proof.
  split; [|split; [|split]].
  - rewrite extract_criteria_ascii by (vm_compute; reflexivity).
    vm_compute. reflexivity.
  - rewrite state_after_ascii by (vm_compute; reflexivity).
    vm_compute. reflexivity.
  - vm_compute. reflexivity.
  - rewrite criteria_step_ascii by (vm_compute; reflexivity).
    vm_compute. reflexivity.
Qed.

(** C6, as amended: a line whose lower-cased text contains ["acceptance"],
    met while the section is open, leaves the section open and is consumed
    as a header: the criteria collected so far are the same after the line,
    and the result is that of the description without the line. *)
Theorem C6_marker_consumed (B : PyBuiltins) (description description' : pystr)
    (before rest : list pystr) (raw : pystr) (criteria : list pystr) :
  split_on 10 description = before ++ raw :: rest ->
  split_on 10 description' = before ++ rest ->
  state_after B before false [] = Next true criteria ->
  contains (u "acceptance") (str_lower B (strip B raw)) = true ->
  state_after B (before ++ [raw]) false [] = Next true criteria
  /\ _extract_acceptance_criteria B (JStr description)
     = _extract_acceptance_criteria B (JStr description').
Proof.
  intros Hd Hd' Hopen Hmarker.
  pose proof (marker_step B raw true criteria Hmarker) as Hstep.
  split.
  - rewrite (state_after_app B before [raw] false [] Hopen).
    cbn [state_after]. now rewrite Hstep.
  - cbn [_extract_acceptance_criteria]. rewrite Hd, Hd'. f_equal.
    rewrite (criteria_loop_app B before (raw :: rest) false [] Hopen).
    rewrite (criteria_loop_app B before rest false [] Hopen).
    cbn [criteria_loop]. now rewrite Hstep.
Qed.

Lemma C6_marker_consumed_witness :
  state_after ascii_builtins
    [u "Acceptance Criteria:"; u "- first"; u "acceptance tests pass"] false []
  = Next true [u "first"]
  /\ _extract_acceptance_criteria ascii_builtins (JStr reentry_example)
     = _extract_acceptance_criteria ascii_builtins (JStr reentry_shortened).
Proof.
  apply (@C6_marker_consumed ascii_builtins reentry_example reentry_shortened
           [u "Acceptance Criteria:"; u "- first"] [u "- second"]
           (u "acceptance tests pass") [u "first"]);
    reflexivity.
Defined.

(** C6, as stated, fails: in a description with the lines ["Acceptance
    Criteria:"], ["- first"], ["acceptance tests pass"], ["- second"] the
    third line is not among the criteria. *)
Lemma C6_counterexample :
  (forall B : PyBuiltins,
      _extract_acceptance_criteria B (JStr reentry_example)
      = Ok [u "first"; u "second"])
  /\ ~ In (u "acceptance tests pass") [u "first"; u "second"].
Proof.
  split.
  - intros B. rewrite extract_criteria_ascii by (vm_compute; reflexivity).
    vm_compute. reflexivity.
  - vm_compute. intros [H | [H | []]]; discriminate H.
Qed.

(** ** Document text extraction *)

(** C3, as amended: the document with the two paragraphs ["Hello"] and
    ["World"] is rendered as ["Hello"], a space, a newline, a space and
    ["World"]: the break emitted before the second paragraph is one of the
    tokens joined by spaces. *)
Theorem C3_hello_world (B : PyBuiltins) :
  traverse hello_world_doc []
  = Ok [JStr (u "Hello"); JStr newline; JStr (u "World")]
  /\ _extract_text_from_adf B hello_world_doc
     = Ok (u "Hello " ++ newline ++ u " World").
Proof.
  split; [vm_compute; reflexivity|].
  rewrite extract_text_ascii
    with (parts := [JStr (u "Hello"); JStr newline; JStr (u "World")])
         (strings := [u "Hello"; newline; u "World"]);
    vm_compute; reflexivity.
Qed.

(** C3, as stated, fails: whatever the builtins, the result is not
    ["Hello World"]. *)
Lemma C3_counterexample :
  ~ exists B : PyBuiltins,
      _extract_text_from_adf B hello_world_doc = Ok (u "Hello World").
Proof.
  intros [B H].
  rewrite extract_text_ascii
    with (parts := [JStr (u "Hello"); JStr newline; JStr (u "World")])
         (strings := [u "Hello"; newline; u "World"]) in H;
    try (vm_compute; reflexivity).
  vm_compute in H. discriminate H.
Qed.

(** ** The transformer *)

Lemma strings_only_app (a b : list json) :
  strings_only (a ++ b) = strings_only a && strings_only b.
Proof. apply forallb_app. Qed.

Lemma all_strings_ok (parts : list json) :
  strings_only parts = true -> exists ss, all_strings parts = Ok ss.
Proof.
  induction parts as [|v parts IH]; simpl; intros H.
  - now exists [].
  - apply andb_prop in H as [Hv Hp]. destruct v; try discriminate Hv.
    destruct (IH Hp) as [ss ->]. simpl. now eexists.
Qed.

Lemma visit_strings (node : list (pystr * json)) (parts : list json) :
  text_ok node = true -> strings_only parts = true ->
  strings_only (visit node parts) = true.
Proof.
  unfold text_ok, visit. intros Ht Hp.
  destruct (dict_get node (u "type")) as [ty|]; [|exact Hp].
  destruct (is_str (u "text") ty).
  - rewrite strings_only_app, Hp. simpl. now rewrite Ht.
  - destruct (_ || _); [|exact Hp].
    destruct (needs_break parts); [|exact Hp].
    now rewrite strings_only_app, Hp.
Qed.

Lemma for_each_strings (children : list json) :
  Forall (fun child => adf_ok child = true ->
            forall parts, strings_only parts = true ->
            exists parts', traverse child parts = Ok parts'
                           /\ strings_only parts' = true) children ->
  forallb adf_ok children = true ->
  forall parts, strings_only parts = true ->
  exists parts', for_each traverse children parts = Ok parts'
                 /\ strings_only parts' = true.
Proof.
  induction 1 as [|child children Hc _ IH]; intros Hok parts Hp.
  - exists parts. now split.
  - simpl in Hok. apply andb_prop in Hok as [Hok1 Hok2].
    destruct (Hc Hok1 parts Hp) as (parts1 & E1 & Hp1).
    cbn [for_each]. rewrite E1. now apply IH.
Qed.

(** On a well-formed document the traversal does not raise and collects
    strings only. *)
Lemma traverse_strings (node : json) :
  adf_ok node = true ->
  forall parts, strings_only parts = true ->
  exists parts', traverse node parts = Ok parts' /\ strings_only parts' = true.
Proof.
  induction node as [| | | | |items IH|fields IH] using json_induction;
    intros Hok parts Hp;
    try (exists parts; now split).
  - cbn [traverse]. now apply for_each_strings.
  - cbn [traverse]. cbn [adf_ok] in Hok. apply andb_prop in Hok as [Ht Hc].
    pose proof (visit_strings fields parts Ht Hp) as Hv.
    generalize dependent (visit fields parts). intros parts1 Hp1.
    clear Ht Hp. induction IH as [|[k content] rest Hk _ IHrest].
    + exists parts1. now split.
    + simpl in Hk. destruct (pystr_eqb k (u "content")).
      * destruct content; try discriminate Hc; try (exists parts1; now split).
        exact (Hk Hc parts1 Hp1).
      * now apply IHrest.
Qed.

Section TransformFacts.

Variable B : PyBuiltins.

Lemma extract_text_ok (doc : json) :
  adf_ok doc = true -> exists text, _extract_text_from_adf B doc = Ok text.
Proof.
  intros Hok. unfold _extract_text_from_adf.
  destruct (negb (is_dict doc)); [now eexists|].
  destruct (traverse_strings doc Hok [] eq_refl) as (parts & Et & Hp).
  destruct (all_strings_ok parts Hp) as [ss Es].
  rewrite Et. cbn [bind]. rewrite Es. cbn [bind]. now eexists.
Qed.

Lemma resolve_description_ok (fields : list (pystr * json)) (title : json) :
  description_ok (dict_get_default fields (u "description") (JObj [])) = true ->
  exists text, resolve_description B fields title = Ok (JStr text).
Proof.
  unfold resolve_description.
  destruct (dict_get_default fields (u "description") (JObj [])) as
    [ |b|z|nz t|s|items|items] eqn:E; cbn [description_ok is_dict]; intros H;
    try (apply negb_true_iff in H; rewrite H; now eexists).
  - destruct (truthy (JStr s)) eqn:T; [|now eexists].
    now exists s.
  - destruct (extract_text_ok _ H) as [text ->]. now exists text.
Qed.

Lemma name_lower_ok (v : json) (default : pystr) :
  name_ok v = true ->
  exists s, name_lower B v default = Ok s.
Proof.
  destruct v; try discriminate. cbn [name_ok name_lower].
  unfold dict_get_default.
  destruct (dict_get items (u "name")) as [[ | | | | | | ]|];
    try discriminate; intros _; now eexists.
Qed.

Lemma resolve_priority_ok (fields : list (pystr * json)) (idx : nat) :
  (let p := dict_get_default fields (u "priority") (JObj []) in
   negb (truthy p) || name_ok p) = true ->
  exists p, resolve_priority B fields idx = Ok p.
Proof.
  cbv zeta. unfold resolve_priority. intros H.
  destruct (truthy (dict_get_default fields (u "priority") (JObj []))).
  - simpl in H. destruct (name_lower_ok _ (u "medium") H) as [s ->].
    now eexists.
  - now eexists.
Qed.

(** A well-shaped issue is transformed without an exception. *)
Lemma transform_ticket_ok (idx : nat) (ticket : json) :
  well_shaped ticket = true ->
  exists story, transform_ticket B idx ticket = Ok story.
Proof.
  destruct ticket as [ | | | | | |items]; try discriminate.
  cbn [well_shaped transform_ticket].
  destruct (dict_get_default items (u "fields") (JObj [])) as
    [ | | | | | |fields]; try discriminate.
  intros H. apply andb_prop in H as [H Hs]. apply andb_prop in H as [Hd Hp].
  destruct (resolve_description_ok fields
              (dict_get_default fields (u "summary") (JStr (u "Untitled"))) Hd)
    as [text ->].
  destruct (resolve_priority_ok fields idx Hp) as [p ->].
  destruct (name_lower_ok _ [] Hs) as [s ->].
  cbn. now eexists.
Qed.

Lemma transform_loop_ok (tickets : list json) :
  forallb well_shaped tickets = true ->
  forall idx, exists stories,
    transform_loop B idx tickets = Ok stories
    /\ length stories = length tickets.
Proof.
  induction tickets as [|t rest IH]; intros H idx.
  - exists []. now split.
  - simpl in H. apply andb_prop in H as [Ht Hr].
    destruct (transform_ticket_ok idx t Ht) as [story Es].
    destruct (IH Hr (S idx)) as (stories & E & L).
    exists (story :: stories). cbn [transform_loop]. rewrite Es, E.
    simpl. now rewrite L.
Qed.

(** The story at a position is the transformed ticket of that position. *)
Lemma transform_loop_nth (tickets : list json) :
  forall idx stories,
    transform_loop B idx tickets = Ok stories ->
    length stories = length tickets
    /\ forall i ticket,
         nth_error tickets i = Some ticket ->
         exists story,
           nth_error stories i = Some story
           /\ transform_ticket B (idx + i) ticket = Ok story.
Proof.
  induction tickets as [|t rest IH]; intros idx stories H.
  - injection H as <-. split; [reflexivity|]. intros [|i] ticket Hn; discriminate Hn.
  - cbn [transform_loop] in H.
    destruct (transform_ticket B idx t) as [story|] eqn:Es; [|discriminate H].
    cbn [bind] in H.
    destruct (transform_loop B (S idx) rest) as [stories'|] eqn:El;
      [|discriminate H].
    injection H as <-. destruct (IH _ _ El) as [L Hnth].
    split; [simpl; now rewrite L|].
    intros [|i] ticket Hn.
    + injection Hn as <-. exists story. now rewrite Nat.add_0_r.
    + destruct (Hnth i ticket Hn) as (s & Hs & Ht). exists s.
      split; [exact Hs|]. now rewrite Nat.add_succ_r.
Qed.

Lemma transform_nth (tickets : list json) (name : pystr)
    (branch descr : option pystr) (prd : PRD) (i : nat) (ticket : json) :
  transform_to_prd_format B tickets name branch descr = Ok prd ->
  nth_error tickets i = Some ticket ->
  exists story,
    nth_error (userStories prd) i = Some story
    /\ transform_ticket B (S i) ticket = Ok story.
Proof.
  unfold transform_to_prd_format. intros H Hn.
  destruct (transform_loop B 1 tickets) as [stories|] eqn:E; [|discriminate H].
  injection H as <-. cbn [userStories].
  destruct (transform_loop_nth _ _ E) as [_ Hnth]. exact (Hnth i ticket Hn).
Qed.

Lemma transform_ok (tickets : list json) (name : pystr)
    (branch descr : option pystr) :
  forallb well_shaped tickets = true ->
  exists prd,
    transform_to_prd_format B tickets name branch descr = Ok prd
    /\ length (userStories prd) = length tickets.
Proof.
  intros H. destruct (transform_loop_ok tickets H 1) as (stories & E & L).
  unfold transform_to_prd_format. rewrite E. cbn [bind].
  eexists. split; [reflexivity|exact L].
Qed.

(** What a transformed ticket is made of. *)
Lemma transform_ticket_inv (idx : nat) (ticket : json) (story : UserStory) :
  transform_ticket B idx ticket = Ok story ->
  exists items fields extracted status,
    ticket = JObj items
    /\ dict_get_default items (u "fields") (JObj []) = JObj fields
    /\ id story
       = dict_get_default items (u "key") (JStr (u "US-" ++ pad3 (N.of_nat idx)))
    /\ title story = dict_get_default fields (u "summary") (JStr (u "Untitled"))
    /\ resolve_description B fields (title story) = Ok (description story)
    /\ _extract_acceptance_criteria B (description story) = Ok extracted
    /\ acceptanceCriteria story
       = match extracted with
         | [] => default_criteria B (title story)
         | _ :: _ => extracted
         end
    /\ resolve_priority B fields idx = Ok (priority story)
    /\ name_lower B (dict_get_default fields (u "status") (JObj [])) [] = Ok status
    /\ passes story = is_done status
    /\ notes story = [].
Proof.
  destruct ticket as [ | | | | | |items]; try discriminate.
  cbn [transform_ticket].
  destruct (dict_get_default items (u "fields") (JObj [])) as
    [ | | | | | |fields] eqn:Ef; try discriminate.
  destruct (resolve_description B fields _) as [d|] eqn:Ed; [|discriminate].
  cbn [bind].
  destruct (_extract_acceptance_criteria B d) as [ex|] eqn:Ex; [|discriminate].
  cbn [bind].
  destruct (resolve_priority B fields idx) as [p|] eqn:Ep; [|discriminate].
  cbn [bind].
  destruct (name_lower B _ []) as [st|] eqn:Es; [|discriminate].
  cbn [bind]. intros H. injection H as <-. cbn.
  exists items, fields, ex, st. repeat split; assumption.
Qed.

End TransformFacts.

(** *** The shape is exactly what the code needs *)

Lemma all_strings_inv (parts : list json) (ss : list pystr) :
  all_strings parts = Ok ss -> strings_only parts = true.
Proof.
  revert ss. induction parts as [|v parts IH]; intros ss H; [reflexivity|].
  destruct v; try discriminate H. cbn [all_strings] in H.
  destruct (all_strings parts) as [ss'|]; [|discriminate H].
  simpl. now apply IH with ss'.
Qed.

Lemma visit_extends (node : list (pystr * json)) (parts : list json) :
  exists added, visit node parts = parts ++ added.
Proof.
  unfold visit. destruct (dict_get node (u "type")) as [ty|];
    [|exists []; now rewrite app_nil_r].
  destruct (is_str (u "text") ty); [now eexists|].
  destruct (_ || _); [|exists []; now rewrite app_nil_r].
  destruct (needs_break parts); [now eexists|exists []; now rewrite app_nil_r].
Qed.

Lemma visit_strings_inv (node : list (pystr * json)) (parts : list json) :
  strings_only (visit node parts) = true -> text_ok node = true.
Proof.
  unfold visit, text_ok. destruct (dict_get node (u "type")) as [ty|];
    [|reflexivity].
  destruct (is_str (u "text") ty); [|reflexivity].
  rewrite strings_only_app. intros H. apply andb_prop in H as [_ H].
  simpl in H. now rewrite andb_true_r in H.
Qed.

Lemma strings_only_prefix (parts added : list json) :
  strings_only (parts ++ added) = true -> strings_only parts = true.
Proof.
  rewrite strings_only_app. intros H. now apply andb_prop in H as [H _].
Qed.

Lemma for_each_traversed (children : list json) :
  Forall traversed children ->
  forall parts parts',
    for_each traverse children parts = Ok parts' ->
    (exists added, parts' = parts ++ added)
    /\ (strings_only parts' = true -> forallb adf_ok children = true).
Proof.
  induction 1 as [|child children Hc _ IH]; intros parts parts' H.
  - injection H as <-. split; [exists []; now rewrite app_nil_r|reflexivity].
  - cbn [for_each] in H.
    destruct (traverse child parts) as [parts1|] eqn:E1; [|discriminate H].
    destruct (Hc _ _ E1) as [[a1 ->] Hok1].
    destruct (IH _ _ H) as [[a2 ->] Hok2].
    split; [exists (a1 ++ a2); now rewrite app_assoc|].
    intros Hs. simpl. rewrite (Hok2 Hs), andb_true_r.
    apply Hok1. now apply strings_only_prefix with a2.
Qed.

Lemma traverse_traversed (node : json) : traversed node.
Proof.
  induction node as [| | | | |items IH|fields IH] using json_induction;
    intros parts parts' H;
    try (injection H as <-; split;
         [exists []; now rewrite app_nil_r | reflexivity]).
  - cbn [traverse] in H. cbn [adf_ok]. now apply for_each_traversed.
  - cbn [traverse] in H. cbn [adf_ok].
    destruct (visit_extends fields parts) as [a0 Ev].
    pose proof (visit_strings_inv fields parts) as Ht.
    revert H Ht. rewrite Ev. clear Ev. generalize (text_ok fields). intros tok.
    induction IH as [|[k content] rest Hk _ IHrest]; intros H Ht.
    + injection H as <-. split; [now exists a0|].
      intros Hs. now rewrite (Ht Hs).
    + simpl in Hk. destruct (pystr_eqb k (u "content")).
      * destruct content; try discriminate H;
          try (injection H as <-; split; [now exists a0|];
               intros Hs; now rewrite (Ht Hs)).
        destruct (Hk _ _ H) as [[a1 ->] Hok].
        split; [exists (a0 ++ a1); now rewrite app_assoc|].
        intros Hs. pose proof (Hok Hs) as Hitems. cbn [adf_ok] in Hitems.
        rewrite Hitems, andb_true_r. apply Ht.
        now apply strings_only_prefix with a1.
      * exact (IHrest H Ht).
Qed.

Section ShapeFacts.

Variable B : PyBuiltins.

Lemma extract_text_inv (doc : json) (text : pystr) :
  is_dict doc = true ->
  _extract_text_from_adf B doc = Ok text -> adf_ok doc = true.
Proof.
  intros Hd. unfold _extract_text_from_adf. rewrite Hd. cbn [negb].
  destruct (traverse doc []) as [parts|] eqn:Et; [|discriminate].
  cbn [bind]. destruct (all_strings parts) as [ss|] eqn:Es; [|discriminate].
  intros _. destruct (traverse_traversed doc [] Et) as [_ Hok].
  apply Hok. now apply all_strings_inv with ss.
Qed.

Lemma resolve_description_inv (fields : list (pystr * json)) (title d : json)
    (extracted : list pystr) :
  resolve_description B fields title = Ok d ->
  _extract_acceptance_criteria B d = Ok extracted ->
  description_ok (dict_get_default fields (u "description") (JObj [])) = true.
Proof.
  unfold resolve_description.
  destruct (dict_get_default fields (u "description") (JObj [])) as
    [ |b|z|nz t|s|items|items] eqn:E; cbn [is_dict description_ok];
    try reflexivity;
    try (destruct (truthy _) eqn:T; [|reflexivity];
         intros H; injection H as <-; discriminate).
  destruct (_extract_text_from_adf B (JObj items)) as [text|] eqn:Ex;
    [|discriminate].
  intros _ _. now apply extract_text_inv with text.
Qed.

Lemma name_lower_inv (v : json) (default s : pystr) :
  name_lower B v default = Ok s -> name_ok v = true.
Proof.
  destruct v; try discriminate. cbn [name_lower name_ok].
  unfold dict_get_default.
  destruct (dict_get items (u "name")) as [[ | | | | | | ]|];
    try discriminate; reflexivity.
Qed.

Lemma resolve_priority_inv (fields : list (pystr * json)) (idx : nat) (p : Z) :
  resolve_priority B fields idx = Ok p ->
  (let v := dict_get_default fields (u "priority") (JObj []) in
   negb (truthy v) || name_ok v) = true.
Proof.
  cbv zeta. unfold resolve_priority.
  destruct (truthy (dict_get_default fields (u "priority") (JObj [])));
    [|reflexivity].
  destruct (name_lower B _ (u "medium")) as [s|] eqn:E; [|discriminate].
  intros _. cbn [negb orb]. now apply name_lower_inv with (u "medium") s.
Qed.

(** Only a well-shaped issue is transformed without an exception. *)
Lemma transform_ticket_shape (idx : nat) (ticket : json) (story : UserStory) :
  transform_ticket B idx ticket = Ok story -> well_shaped ticket = true.
Proof.
  intros H. destruct (transform_ticket_inv _ _ _ H)
    as (items & fields & ex & st & -> & Ef & _ & _ & Hd & Hex & _ & Hp & Hs & _).
  cbn [well_shaped]. rewrite Ef.
  apply andb_true_intro; split; [apply andb_true_intro; split|].
  - exact (resolve_description_inv _ _ Hd Hex).
  - exact (resolve_priority_inv _ _ Hp).
  - exact (name_lower_inv _ _ Hs).
Qed.

Lemma transform_loop_shape (tickets : list json) :
  forall idx stories,
    transform_loop B idx tickets = Ok stories ->
    forallb well_shaped tickets = true.
Proof.
  induction tickets as [|t rest IH]; intros idx stories H; [reflexivity|].
  cbn [transform_loop] in H.
  destruct (transform_ticket B idx t) as [story|] eqn:Et; [|discriminate H].
  cbn [bind] in H.
  destruct (transform_loop B (S idx) rest) as [stories'|] eqn:El;
    [|discriminate H].
  simpl. now rewrite (transform_ticket_shape _ _ Et), (IH _ _ El).
Qed.

Lemma transform_shape (tickets : list json) (name : pystr)
    (branch descr : option pystr) (prd : PRD) :
  transform_to_prd_format B tickets name branch descr = Ok prd ->
  forallb well_shaped tickets = true.
Proof.
  unfold transform_to_prd_format.
  destruct (transform_loop B 1 tickets) as [stories|] eqn:E; [|discriminate].
  intros _. now apply transform_loop_shape with 1 stories.
Qed.

End ShapeFacts.

Lemma transform_story_origin (B : PyBuiltins) (tickets : list json)
    (name : pystr) (branch descr : option pystr) (prd : PRD) (i : nat)
    (story : UserStory) :
  transform_to_prd_format B tickets name branch descr = Ok prd ->
  nth_error (userStories prd) i = Some story ->
  exists ticket,
    nth_error tickets i = Some ticket
    /\ transform_ticket B (S i) ticket = Ok story.
Proof.
  intros H Hs.
  assert (L : length (userStories prd) = length tickets).
  { unfold transform_to_prd_format in H.
    destruct (transform_loop B 1 tickets) as [stories|] eqn:E; [|discriminate H].
    injection H as <-. now destruct (transform_loop_nth _ _ _ E). }
  destruct (nth_error tickets i) as [ticket|] eqn:Et.
  - exists ticket. split; [reflexivity|].
    destruct (transform_nth _ _ _ _ _ _ H Et) as (s & Hs' & Ht).
    congruence.
  - apply nth_error_None in Et.
    assert (i < length (userStories prd)) by (apply nth_error_Some; congruence).
    lia.
Qed.

Lemma key_field_default (items : list (pystr * json)) (d : json) :
  dict_get_default items (u "key") d
  = match key_field (JObj items) with Some v => v | None => d end.
Proof. reflexivity. Qed.

Lemma fields_of_ticket (items fields : list (pystr * json)) (k : pystr) :
  dict_get_default items (u "fields") (JObj []) = JObj fields ->
  field (JObj items) k = dict_get fields k.
Proof.
  unfold dict_get_default, field.
  destruct (dict_get items (u "fields")) as [v|]; intros E.
  - now subst v.
  - now injection E as <-.
Qed.

Lemma medium_is_3 (B : PyBuiltins) (idx : Z) :
  priority_map_get (str_lower B (u "medium")) idx = 3%Z.
Proof. now rewrite str_lower_ascii. Qed.

(** The priority of a story, from the raw label of its ticket. *)
Lemma resolve_priority_label (B : PyBuiltins) (items fields : list (pystr * json))
    (idx : nat) (p : Z) :
  dict_get_default items (u "fields") (JObj []) = JObj fields ->
  resolve_priority B fields idx = Ok p ->
  p = match priority_label (JObj items) with
      | Some label => priority_map_get (str_lower B label) (Z.of_nat idx)
      | None => 3%Z
      end.
Proof.
  intros Ef. unfold priority_label. rewrite (fields_of_ticket _ _ Ef).
  unfold resolve_priority, dict_get_default.
  destruct (dict_get fields (u "priority")) as [v|];
    [|cbn; intros H; now injection H as <-].
  destruct (truthy v) eqn:T.
  - destruct v as [ | | | | | |pr]; try discriminate.
    cbn [name_lower]. unfold dict_get_default.
    destruct (dict_get pr (u "name")) as [[ | | | |label| | ]|];
      try discriminate; cbn [bind]; intros H; injection H as <-;
      [reflexivity | apply medium_is_3].
  - cbn [bind]. intros H. injection H as <-.
    destruct v as [ | | | | | |pr]; try reflexivity.
    destruct pr; [reflexivity | discriminate T].
Qed.

(** C4, as amended: the priority of the story at the 1-based position [i]
    is the value of the lower-cased raw priority label under the table
    highest 1, high 2, medium 3, low 4, lowest 5; it is [i] when the label is
    not in the table, and 3, the rank of ["medium"], when the issue has no
    priority label. *)
Theorem C4_priority (B : PyBuiltins) (tickets : list json) (name : pystr)
    (branch descr : option pystr) (prd : PRD) (i : nat) (ticket : json) :
  transform_to_prd_format B tickets name branch descr = Ok prd ->
  nth_error tickets i = Some ticket ->
  exists story,
    nth_error (userStories prd) i = Some story
    /\ priority story
       = match priority_label ticket with
         | Some label =>
             match table_lookup priority_map (str_lower B label) with
             | Some p => p
             | None => Z.of_nat (S i)
             end
         | None => 3%Z
         end.
Proof.
  intros H Hn. destruct (transform_nth _ _ _ _ _ _ H Hn) as (story & Hs & Ht).
  exists story. split; [exact Hs|].
  destruct (transform_ticket_inv _ _ _ Ht)
    as (items & fields & ex & st & -> & Ef & _ & _ & _ & _ & _ & Hp & _).
  exact (resolve_priority_label _ _ _ Ef Hp).
Qed.

Lemma C4_priority_witness :
  exists story,
    nth_error (userStories (example_prd seven_issues)) 6 = Some story
    /\ priority story
       = match priority_label urgent_issue with
         | Some label =>
             match table_lookup priority_map (str_lower ascii_builtins label) with
             | Some p => p
             | None => Z.of_nat 7
             end
         | None => 3%Z
         end.
Proof.
  apply (@C4_priority ascii_builtins seven_issues (u "PROJ") None None
           (example_prd seven_issues) 6 urgent_issue);
    vm_compute; reflexivity.
Defined.

(** The five labels in any mix of cases, and ["urgent"] on the seventh
    record. *)
Lemma priority_examples (B : PyBuiltins) :
  map (fun label => priority_map_get (str_lower B (u label)) 7)
    ["Highest"; "HIGH"; "medium"; "Low"; "lOWEST"; "urgent"]%string
  = [1; 2; 3; 4; 5; 7]%Z.
Proof.
  cbn [map]. now rewrite !str_lower_ascii.
Qed.

Lemma single_story (B : PyBuiltins) (ticket : json) (name : pystr)
    (branch descr : option pystr) (prd : PRD) :
  transform_to_prd_format B [ticket] name branch descr = Ok prd ->
  exists story,
    userStories prd = [story] /\ transform_ticket B 1 ticket = Ok story.
Proof.
  unfold transform_to_prd_format. cbn [transform_loop].
  destruct (transform_ticket B 1 ticket) as [story|]; [|discriminate].
  cbn. intros H. injection H as <-. now exists story.
Qed.

(** C4, as stated, fails: the first issue of a list, when it has no
    priority, gets the priority 3 and not its position 1. *)
Lemma C4_counterexample :
  priority_label plain_issue = None
  /\ (forall B : PyBuiltins,
        exists prd,
          transform_to_prd_format B [plain_issue] (u "PROJ") None None = Ok prd
          /\ map priority (userStories prd) = [3%Z])
  /\ 3%Z <> Z.of_nat 1.
Proof.
  split; [reflexivity|]. split; [|discriminate].
  intros B.
  destruct (transform_ok B [plain_issue] (u "PROJ") None None eq_refl)
    as (prd & H & _).
  exists prd. split; [exact H|].
  destruct (single_story _ _ _ _ _ H) as (story & -> & Ht).
  destruct (transform_ticket_inv _ _ _ Ht)
    as (items & fields & ex & st & E & Ef & _ & _ & _ & _ & _ & Hp & _).
  injection E as <-. cbn [map].
  now rewrite (resolve_priority_label _ _ _ Ef Hp).
Qed.

Lemma flat_priority_raises (B : PyBuiltins) :
  transform_to_prd_format B [flat_priority_issue] (u "PROJ") None None
  = Raise AttributeError.
Proof. vm_compute. reflexivity. Qed.

Lemma absent_status_fails (B : PyBuiltins) (fields : list (pystr * json))
    (status : pystr) :
  dict_get fields (u "status") = None ->
  name_lower B (dict_get_default fields (u "status") (JObj [])) [] = Ok status ->
  is_done status = false.
Proof.
  unfold dict_get_default. intros ->. cbn. rewrite str_lower_ascii by reflexivity.
  intros H. now injection H as <-.
Qed.

(** C5, as amended: a list of raw issues is transformed without an
    exception exactly when each of them is an object whose [fields] is
    missing or an object, whose description is missing, false as a
    condition, a string or a well-formed document, whose priority is
    missing, false as a condition or an object with a name that is missing or
    a string, and whose status is missing or such an object. There is then
    one story per issue, and a missing key, summary, priority or status
    gives the story the id [US-<i>], the title ["Untitled"], the priority 3
    and [passes = false]. *)
Theorem C5_well_shaped_never_raises (B : PyBuiltins) (tickets : list json)
    (name : pystr) (branch descr : option pystr) :
  is_ok (transform_to_prd_format B tickets name branch descr)
  = forallb well_shaped tickets
  /\ (forallb well_shaped tickets = true ->
      exists prd,
        transform_to_prd_format B tickets name branch descr = Ok prd
        /\ length (userStories prd) = length tickets
        /\ forall i ticket story,
             nth_error tickets i = Some ticket ->
             nth_error (userStories prd) i = Some story ->
             (key_field ticket = None ->
              id story = JStr (u "US-" ++ pad3 (N.of_nat (S i))))
             /\ (field ticket (u "summary") = None ->
                 title story = JStr (u "Untitled"))
             /\ (field ticket (u "priority") = None -> priority story = 3%Z)
             /\ (field ticket (u "status") = None -> passes story = false)).
Proof.
  split.
  - destruct (forallb well_shaped tickets) eqn:Hw.
    + now destruct (transform_ok B tickets name branch descr Hw) as (prd & -> & _).
    + destruct (transform_to_prd_format B tickets name branch descr)
        as [prd|e] eqn:H; [|reflexivity].
      rewrite (transform_shape _ _ _ _ _ H) in Hw. discriminate Hw.
  - intros Hw. destruct (transform_ok B tickets name branch descr Hw)
      as (prd & H & L).
    exists prd. split; [exact H|]. split; [exact L|].
    intros i ticket story Hn Hs.
    destruct (transform_nth _ _ _ _ _ _ H Hn) as (story' & Hs' & Ht).
    assert (story' = story) by congruence. subst story'.
    destruct (transform_ticket_inv _ _ _ Ht)
      as (items & fields & ex & st & -> & Ef & Hid & Hti & _ & _ & _ & Hp & Hst
          & Hpa & _).
    repeat split.
    + intros Hk. now rewrite Hid, key_field_default, Hk.
    + rewrite (fields_of_ticket _ _ Ef). intros Hk. rewrite Hti.
      unfold dict_get_default. now rewrite Hk.
    + intros Hk. rewrite (resolve_priority_label _ _ _ Ef Hp).
      unfold priority_label. now rewrite Hk.
    + rewrite (fields_of_ticket _ _ Ef). intros Hk. rewrite Hpa.
      now apply absent_status_fails with B fields.
Qed.

Lemma C5_well_shaped_never_raises_witness :
  forallb well_shaped [plain_issue; JObj []; urgent_issue] = true
  /\ exists prd,
       transform_to_prd_format ascii_builtins
         [plain_issue; JObj []; urgent_issue] (u "PROJ") None None = Ok prd
       /\ length (userStories prd) = 3.
Proof.
  split; [reflexivity|].
  destruct (proj2 (@C5_well_shaped_never_raises ascii_builtins
                     [plain_issue; JObj []; urgent_issue] (u "PROJ") None None)
              eq_refl) as (prd & H & L & _).
  exists prd. split; [exact H | exact L].
Defined.

(** C5, as stated, fails: an issue whose priority is the string ["High"]
    instead of an object makes the transformation raise, whatever the
    builtins. *)
Lemma C5_counterexample :
  ~ exists (B : PyBuiltins) (prd : PRD),
      transform_to_prd_format B [flat_priority_issue] (u "PROJ") None None
      = Ok prd.
Proof.
  intros (B & prd & H). rewrite flat_priority_raises in H. discriminate H.
Qed.

(** C8: the acceptance criteria of every story are a non-empty list: the
    three entries ["Implement <title>"], ["Code passes all tests"],
    ["Documentation updated"] when the extraction on the story's description
    finds nothing, and what the extraction finds otherwise. *)
Theorem C8_criteria_nonempty (B : PyBuiltins) (tickets : list json)
    (name : pystr) (branch descr : option pystr) (prd : PRD) (i : nat)
    (story : UserStory) :
  transform_to_prd_format B tickets name branch descr = Ok prd ->
  nth_error (userStories prd) i = Some story ->
  acceptanceCriteria story <> []
  /\ exists extracted,
       _extract_acceptance_criteria B (description story) = Ok extracted
       /\ (extracted = [] ->
           acceptanceCriteria story
           = [u "Implement " ++ py_format B (title story);
              u "Code passes all tests"; u "Documentation updated"])
       /\ (extracted <> [] -> acceptanceCriteria story = extracted).
Proof.
  intros H Hs.
  destruct (transform_story_origin _ _ _ _ _ _ H Hs) as (ticket & _ & Ht).
  destruct (transform_ticket_inv _ _ _ Ht)
    as (items & fields & ex & st & _ & _ & _ & _ & _ & Hex & Hac & _).
  split.
  - rewrite Hac. destruct ex; discriminate.
  - exists ex. split; [exact Hex|]. split.
    + intros ->. exact Hac.
    + intros Hne. rewrite Hac. now destruct ex.
Qed.

Lemma C8_criteria_nonempty_witness :
  acceptanceCriteria (story_at (example_prd [plain_issue]) 0) <> []
  /\ acceptanceCriteria (story_at (example_prd [plain_issue]) 0)
     = [u "Implement Add login"; u "Code passes all tests";
        u "Documentation updated"].
Proof.
  destruct (@C8_criteria_nonempty ascii_builtins [plain_issue] (u "PROJ")
              None None (example_prd [plain_issue]) 0
              (story_at (example_prd [plain_issue]) 0) eq_refl eq_refl)
    as (Hne & ex & _ & _ & _).
  split; [exact Hne | reflexivity].
Defined.

(** C10: the id of a story is the value of the issue's [key] whenever the
    issue has that key, be the value a string, the empty string or [null];
    it is ["US-"] followed by the 1-based position, padded with zeros to
    three digits, only when the issue has no [key] at all. *)
Theorem C10_id_from_key (B : PyBuiltins) (tickets : list json) (name : pystr)
    (branch descr : option pystr) (prd : PRD) (i : nat) (ticket : json) :
  transform_to_prd_format B tickets name branch descr = Ok prd ->
  nth_error tickets i = Some ticket ->
  exists story,
    nth_error (userStories prd) i = Some story
    /\ id story
       = match key_field ticket with
         | Some value => value
         | None => JStr (u "US-" ++ pad3 (N.of_nat (S i)))
         end.
Proof.
  intros H Hn. destruct (transform_nth _ _ _ _ _ _ H Hn) as (story & Hs & Ht).
  exists story. split; [exact Hs|].
  destruct (transform_ticket_inv _ _ _ Ht)
    as (items & fields & ex & st & -> & _ & Hid & _).
  now rewrite Hid, key_field_default.
Qed.

Lemma C10_id_from_key_witness :
  exists story,
    nth_error (userStories (example_prd [plain_issue; null_key_issue; JObj []])) 1
    = Some story
    /\ id story = JNull.
Proof.
  apply (@C10_id_from_key ascii_builtins [plain_issue; null_key_issue; JObj []]
           (u "PROJ") None None
           (example_prd [plain_issue; null_key_issue; JObj []]) 1
           null_key_issue);
    reflexivity.
Defined.

(** The ids of an issue with a key, of one whose key is [null] and of one
    without a key, in this order. *)
Lemma id_examples (B : PyBuiltins) :
  exists prd,
    transform_to_prd_format B [plain_issue; null_key_issue; JObj []]
      (u "PROJ") None None = Ok prd
    /\ map id (userStories prd) = [JStr (u "PROJ-1"); JNull; JStr (u "US-003")].
Proof.
  destruct (transform_ok B [plain_issue; null_key_issue; JObj []] (u "PROJ")
              None None eq_refl) as (prd & H & L).
  exists prd. split; [exact H|].
  destruct (userStories prd) as [|s0 [|s1 [|s2 [|]]]] eqn:E; try discriminate L.
  assert (Hn : forall i t, nth_error [plain_issue; null_key_issue; JObj []] i = Some t ->
               exists s, nth_error [s0; s1; s2] i = Some s
                         /\ transform_ticket B (S i) t = Ok s)
    by (intros i t Hi; rewrite <- E; exact (transform_nth _ _ _ _ _ _ H Hi)).
  destruct (Hn 0 _ eq_refl) as (x0 & E0 & T0).
  destruct (Hn 1 _ eq_refl) as (x1 & E1 & T1).
  destruct (Hn 2 _ eq_refl) as (x2 & E2 & T2).
  injection E0 as <-. injection E1 as <-. injection E2 as <-.
  destruct (transform_ticket_inv _ _ _ T0) as (? & ? & ? & ? & I0 & _ & J0 & _).
  destruct (transform_ticket_inv _ _ _ T1) as (? & ? & ? & ? & I1 & _ & J1 & _).
  destruct (transform_ticket_inv _ _ _ T2) as (? & ? & ? & ? & I2 & _ & J2 & _).
  injection I0 as <-. injection I1 as <-. injection I2 as <-.
  cbn [map]. rewrite J0, J1, J2. reflexivity.
Qed.

(** ** The fetcher *)

Lemma requests_of_app (a b : list event) :
  requests_of (a ++ b) = requests_of a ++ requests_of b.
Proof.
  induction a as [|[m|rq|path prd] a IH]; simpl; [reflexivity| | |];
    now rewrite ?IH.
Qed.

Lemma requests_of_failure (rq : request) (text : option pystr) :
  requests_of
    ([Get rq; Print MsgRequestError]
       ++ match text with
          | Some t => [Print (MsgResponseText t)]
          | None => []
          end) = [rq].
Proof. now destruct text. Qed.

Lemma empty_page_issues (r : response) :
  is_empty_page r = true -> exists i t, r = Page i t /\ issues_of r = [].
Proof.
  destruct r as [text|i t]; [discriminate|]. unfold is_empty_page.
  destruct (issues_of (Page i t)) eqn:E; [|discriminate].
  intros _. now exists i, t.
Qed.

Section FetcherFacts.

Variable server : nat -> request -> response.
Variable query : pystr.
Variable max_results : Z.

(** Whatever the server answers, the cursor of a request is the sum of the
    sizes of the pages received before it. *)
Lemma fetch_loop_cursors (fuel : nat) :
  forall n start_at all_issues evs out,
    fetch_loop server query max_results fuel n start_at all_issues
    = Some (evs, out) ->
    cursor_chain server n start_at (requests_of evs).
Proof.
  induction fuel as [|fuel IH]; intros n s acc evs out H; [discriminate H|].
  cbn [fetch_loop] in H.
  set (rq := {| jql := query; startAt := s; maxResults := max_results |}) in *.
  destruct (server n rq) as [text|i t] eqn:E.
  - injection H as <- <-. destruct text; now split.
  - destruct (issues_of (Page i t)) as [|x issues] eqn:Ei.
    + injection H as <- <-. now split.
    + destruct (_ >=? _)%Z.
      * injection H as <- <-. now split.
      * destruct (fetch_loop _ _ _ fuel _ _ _) as [[evs' out']|] eqn:El;
          [|discriminate H].
        injection H as <- <-. cbn [requests_of app]. split; [reflexivity|].
        rewrite E, Ei. exact (IH _ _ _ _ _ El).
Qed.


End FetcherFacts.

Lemma fetch_all_tickets_run (server : nat -> request -> response)
    (project_key : pystr) (max_results : Z) (fuel : nat) (evs : list event)
    (out : outcome (list json)) :
  fetch_loop server (project_query project_key) max_results fuel 0 0 []
  = Some (evs, out) ->
  exists evs',
    fetch_all_tickets server project_key max_results fuel = Some (evs', out)
    /\ requests_of evs' = requests_of evs.
Proof.
  intros H. unfold fetch_all_tickets. rewrite H.
  destruct out as [tickets|code]; eexists; (split; [reflexivity|]);
    cbn [requests_of]; [|reflexivity].
  rewrite requests_of_app. simpl. now rewrite app_nil_r.
Qed.



(** The run against the stalling server: three requests, two issues. *)
Lemma stalling_run :
  exists evs,
    fetch_all_tickets stalling_server (u "PROJ") 50 5
    = Some (evs, Returned [plain_issue; plain_issue])
    /\ map startAt (requests_of evs) = [0; 1; 2]%Z.
Proof. eexists. split; vm_compute; reflexivity. Qed.

Lemma firstn_skipn_app {A : Type} (s m : nat) (l : list A) :
  firstn s l ++ firstn m (skipn s l) = firstn (s + m) l.
Proof.
  revert l. induction s as [|s IH]; intros l; [reflexivity|].
  destruct l as [|a l]; simpl.
  - now destruct m.
  - now rewrite IH.
Qed.

Lemma ceil_div_small (a b : nat) : 1 <= a <= b -> ceil_div a b = 1.
Proof.
  intros H. unfold ceil_div. symmetry.
  apply Nat.div_unique with (a - 1); lia.
Qed.

Lemma ceil_div_step (a b : nat) :
  1 <= b -> b < a -> ceil_div a b = S (ceil_div (a - b) b).
Proof.
  intros Hb H. unfold ceil_div.
  replace (a + b - 1) with ((a - b + b - 1) + 1 * b) by lia.
  rewrite Nat.div_add by lia. lia.
Qed.

(** The loop against a paging server, from a cursor inside the data. *)
Lemma paged_loop (db : list json) (cap : nat -> nat) (N : nat)
    (query : pystr) :
  1 <= N -> (forall j, 1 <= cap j) ->
  forall fuel n s,
    s < length db -> length db - s <= fuel ->
    exists evs,
      fetch_loop (paged_server db cap) query (Z.of_nat N) fuel n
        (Z.of_nat s) (firstn s db) = Some (evs, Returned db)
      /\ 1 <= length (requests_of evs) <= length db - s
      /\ ((forall j, N <= cap j) ->
          length (requests_of evs) = ceil_div (length db - s) N).
Proof.
  intros HN Hcap. induction fuel as [|fuel IH]; intros n s Hs Hf; [lia|].
  cbn [fetch_loop].
  set (rq := {| jql := query; startAt := Z.of_nat s;
                maxResults := Z.of_nat N |}).
  set (m := Nat.min (cap n) N).
  assert (Hpage : paged_server db cap n rq
                  = Page (Some (firstn m (skipn s db)))
                      (Some (Z.of_nat (length db)))).
  { unfold paged_server, rq. cbn [startAt maxResults]. now rewrite !Nat2Z.id. }
  rewrite Hpage. cbn [issues_of total_of].
  assert (Hlen : length (firstn m (skipn s db)) = Nat.min m (length db - s))
    by now rewrite length_firstn, length_skipn.
  pose proof (firstn_skipn_app s m db) as Hacc.
  pose proof (Hcap n) as Hc.
  destruct (firstn m (skipn s db)) as [|x page] eqn:Ep;
    [simpl in Hlen; lia|].
  rewrite Hacc, Z.geb_leb.
  destruct (Z.leb_spec (Z.of_nat (length db))
              (Z.of_nat s + Z.of_nat (length (x :: page)))) as [Hge|Hlt].
  - assert (Hall : firstn (s + m) db = db) by (apply firstn_all2; lia).
    rewrite Hall. eexists. split; [reflexivity|].
    cbn [requests_of length]. split; [lia|].
    intros Hfull. specialize (Hfull n). symmetry. apply ceil_div_small. lia.
  - assert (Hm : length (x :: page) = m) by lia.
    replace (Z.of_nat s + Z.of_nat (length (x :: page)))%Z
      with (Z.of_nat (s + m)) by lia.
    destruct (IH (S n) (s + m)) as (evs & El & Hr & Hcount); [lia | lia |].
    rewrite El. cbn [with_events]. eexists. split; [reflexivity|].
    cbn [requests_of app length]. split; [lia|].
    intros Hfull. rewrite (Hcount Hfull).
    assert (m = N) by (specialize (Hfull n); lia). subst m.
    rewrite (ceil_div_step (a := length db - s) (b := N)) by lia.
    f_equal. f_equal. lia.
Qed.

(** C1, as amended: against a server that holds [T] issues, reports [T] as
    the total and serves them in order in pages of at least one and at most
    [N] records, the fetch returns exactly these [T] issues in the server's
    order (so with distinct keys when the server's are distinct); every
    request starts at the number of records received so far; there are
    between one and [max 1 T] requests, and exactly [max 1 (ceil (T / N))]
    when the server fills every page up to [N]: one request, not none, when
    [T = 0]. *)
Theorem C1_pagination (db : list json) (cap : nat -> nat) (N : nat)
    (project_key : pystr) (fuel : nat) :
  1 <= N ->
  (forall n, 1 <= cap n) ->
  Nat.max 1 (length db) <= fuel ->
  exists evs tickets,
    fetch_all_tickets (paged_server db cap) project_key (Z.of_nat N) fuel
    = Some (evs, Returned tickets)
    /\ tickets = db
    /\ length tickets = length db
    /\ (NoDup (map key_field db) -> NoDup (map key_field tickets))
    /\ cursor_chain (paged_server db cap) 0 0 (requests_of evs)
    /\ 1 <= length (requests_of evs) <= Nat.max 1 (length db)
    /\ ((forall n, N <= cap n) ->
        length (requests_of evs) = Nat.max 1 (ceil_div (length db) N)).
Proof.
  intros HN Hcap Hfuel.
  assert (Hloop : exists evs,
            fetch_loop (paged_server db cap) (project_query project_key)
              (Z.of_nat N) fuel 0 0 [] = Some (evs, Returned db)
            /\ 1 <= length (requests_of evs) <= Nat.max 1 (length db)
            /\ ((forall n, N <= cap n) ->
                length (requests_of evs)
                = Nat.max 1 (ceil_div (length db) N))).
  { destruct db as [|x db].
    - destruct fuel as [|fuel]; [simpl in Hfuel; lia|].
      cbn [fetch_loop]. unfold paged_server. rewrite skipn_nil, firstn_nil.
      cbn [issues_of].
      eexists. split; [reflexivity|]. split; [simpl; lia|].
      intros _. unfold ceil_div. cbn [length requests_of].
      rewrite Nat.div_small by lia. reflexivity.
    - destruct (@paged_loop (x :: db) cap N (project_query project_key) HN Hcap
                  fuel 0 0) as (evs & H & Hr & Hc); [simpl; lia | lia |].
      exists evs. rewrite Nat.sub_0_r in *. split; [exact H|].
      split; [lia|]. intros Hfull. specialize (Hc Hfull).
      set (c := ceil_div _ N) in *. lia. }
  destruct Hloop as (evs & H & Hr & Hc).
  destruct (fetch_all_tickets_run _ _ _ _ H) as (evs' & H' & E).
  exists evs', db. rewrite E.
  split; [exact H'|]. split; [reflexivity|]. split; [reflexivity|].
  split; [trivial|].
  split; [exact (fetch_loop_cursors _ _ _ _ _ _ _ H)|].
  split; [exact Hr | exact Hc].
Qed.

Lemma C1_pagination_witness :
  1 <= 3
  /\ (forall n : nat, 1 <= 100)
  /\ Nat.max 1 (length (numbered_issues 7)) <= 7
  /\ exists evs tickets,
       fetch_all_tickets (paged_server (numbered_issues 7) (fun _ => 100))
         (u "PROJ") (Z.of_nat 3) 7 = Some (evs, Returned tickets)
       /\ tickets = numbered_issues 7
       /\ length (requests_of evs) = 3.
Proof.
  split; [lia|]. split; [intros _; lia|]. split; [vm_compute; lia|].
  destruct (@C1_pagination (numbered_issues 7) (fun _ => 100) 3 (u "PROJ") 7)
    as (evs & tickets & H & E & _ & _ & _ & _ & Hc);
    [lia | intros _; lia | vm_compute; lia |].
  exists evs, tickets. split; [exact H|]. split; [exact E|].
  rewrite Hc by (intros _; lia). reflexivity.
Defined.

(** C1, as stated, fails: with no issue on the server the fetch sends one
    request, while [ceil (0 / N)] is zero; and a server that serves the three
    issues it holds one per page, for a page size of two, gets three
    requests, while [ceil (3 / 2)] is two. *)
Lemma C1_counterexample :
  (exists evs,
      fetch_all_tickets (paged_server [] (fun _ => 100)) (u "PROJ") 50 1
      = Some (evs, Returned [])
      /\ length (requests_of evs) = 1
      /\ ceil_div 0 50 = 0)
  /\ (exists evs,
         fetch_all_tickets (paged_server (numbered_issues 3) (fun _ => 1))
           (u "PROJ") 2 3
         = Some (evs, Returned (numbered_issues 3))
         /\ length (requests_of evs) = 3
         /\ ceil_div 3 2 = 2).
Proof.
  split; eexists; (split; [vm_compute; reflexivity|]); split; reflexivity.
Qed.

(** ** The command line *)

Lemma fetch_loop_no_page_size_error (server : nat -> request -> response)
    (query : pystr) (max_results : Z) (fuel : nat) :
  forall n start_at all_issues evs out,
    fetch_loop server query max_results fuel n start_at all_issues
    = Some (evs, out) ->
    existsb is_page_size_error evs = false.
Proof.
  induction fuel as [|fuel IH]; intros n s acc evs out H; [discriminate H|].
  cbn [fetch_loop] in H.
  destruct (server n _) as [text|i t].
  - injection H as <- <-. now destruct text.
  - destruct (issues_of (Page i t)) as [|x issues].
    + now injection H as <- <-.
    + destruct (_ >=? _)%Z.
      * now injection H as <- <-.
      * destruct (fetch_loop _ _ _ fuel _ _ _) as [[evs' out']|] eqn:El;
          [|discriminate H].
        injection H as <- <-. simpl. exact (IH _ _ _ _ _ El).
Qed.

Lemma fetch_no_page_size_error (server : nat -> request -> response)
    (project_key : pystr) (max_results : Z) (fuel : nat) (evs : list event)
    (out : outcome (list json)) :
  fetch_all_tickets server project_key max_results fuel = Some (evs, out) ->
  existsb is_page_size_error evs = false.
Proof.
  unfold fetch_all_tickets.
  destruct (fetch_loop _ _ _ _ _ _ _) as [[evs' [tickets|code]]|] eqn:El;
    [| |discriminate]; intros H; injection H as <- <-;
    cbn [existsb is_page_size_error orb];
    rewrite ?existsb_app, (fetch_loop_no_page_size_error _ _ _ _ _ _ _ El);
    reflexivity.
Qed.

(** C9: with a page size below 1 or above 100 [main] prints the error and
    exits with status 1 without having sent a request, whatever the fuel;
    with a page size from 1 to 100 that error is never printed. *)
Theorem C9_page_size_validation (B : PyBuiltins)
    (server : nat -> request -> response) (writable : pystr -> bool)
    (args : arguments) (fuel : nat) :
  ((arg_max_results args < 1 \/ 100 < arg_max_results args)%Z ->
   main B server writable args fuel = Some ([Print MsgPageSize], ExitStatus 1)
   /\ requests_of [Print MsgPageSize] = []
   /\ 1%Z <> 0%Z)
  /\ ((1 <= arg_max_results args <= 100)%Z ->
      forall evs term,
        main B server writable args fuel = Some (evs, term) ->
        existsb is_page_size_error evs = false).
Proof.
  unfold main. split.
  - intros H.
    assert (E : (arg_max_results args <? 1)%Z || (arg_max_results args >? 100)%Z
                = true).
    { apply orb_true_iff. rewrite Z.ltb_lt, Z.gtb_ltb, Z.ltb_lt. exact H. }
    rewrite E. repeat split. discriminate.
  - intros H evs term.
    assert (E : (arg_max_results args <? 1)%Z || (arg_max_results args >? 100)%Z
                = false).
    { apply orb_false_iff. rewrite Z.ltb_ge, Z.gtb_ltb, Z.ltb_ge. lia. }
    rewrite E.
    destruct (fetch_all_tickets _ _ _ _) as [[evs' [tickets|code]]|] eqn:Ef;
      [| |discriminate].
    + pose proof (fetch_no_page_size_error _ _ _ _ Ef) as Hn.
      destruct (transform_to_prd_format _ _ _ _ _) as [prd|e].
      * destruct (writable _); intros Hm; injection Hm as <- _;
          rewrite existsb_app, Hn; reflexivity.
      * intros Hm. now injection Hm as <- _.
    + intros Hm. injection Hm as <- _.
      exact (fetch_no_page_size_error _ _ _ _ Ef).
Qed.

Lemma C9_page_size_validation_witness :
  (101 < 1 \/ 100 < 101)%Z
  /\ main ascii_builtins stalling_server (fun _ => true) (example_args 101) 0
     = Some ([Print MsgPageSize], ExitStatus 1).
Proof.
  split; [right; lia|].
  apply (proj1 (C9_page_size_validation ascii_builtins stalling_server
                  (fun _ => true) (example_args 101) 0)).
  right. reflexivity.
Defined.

(** * Further properties *)

(** ** Runs of the fetcher against any server *)

Section RunFacts.

Variable server : nat -> request -> response.
Variable query : pystr.
Variable max_results : Z.

(** What a finished run of the loop looks like. *)
Lemma fetch_loop_run (fuel : nat) :
  forall n start_at all_issues evs out,
    fetch_loop server query max_results fuel n start_at all_issues
    = Some (evs, out) ->
    Forall (fun rq => jql rq = query /\ maxResults rq = max_results)
      (requests_of evs)
    /\ 1 <= length (requests_of evs) <= fuel
    /\ existsb is_failure (removelast (answers server n (requests_of evs)))
       = false
    /\ progress_of evs
       = running_totals (length all_issues)
           (answers server n (requests_of evs))
    /\ match out with
       | Returned tickets =>
           tickets
           = all_issues
               ++ flat_map issues_of (answers server n (requests_of evs))
           /\ existsb is_failure (answers server n (requests_of evs)) = false
       | Exited code =>
           code = 1%Z
           /\ existsb is_failure (answers server n (requests_of evs)) = true
       end.
Proof.
  induction fuel as [|fuel IH]; intros n s acc evs out H; [discriminate H|].
  cbn [fetch_loop] in H.
  set (rq := {| jql := query; startAt := s; maxResults := max_results |}) in *.
  destruct (server n rq) as [text|i t] eqn:E.
  - injection H as <- <-.
    assert (Hr : requests_of
                   ([Get rq; Print MsgRequestError]
                      ++ match text with
                         | Some t => [Print (MsgResponseText t)]
                         | None => []
                         end) = [rq]) by now destruct text.
    assert (Hp : progress_of
                   ([Get rq; Print MsgRequestError]
                      ++ match text with
                         | Some t => [Print (MsgResponseText t)]
                         | None => []
                         end) = []) by now destruct text.
    cbn [app] in Hr, Hp. rewrite Hr, Hp.
    cbn [answers removelast existsb length running_totals]. rewrite E.
    repeat split; try (simpl; lia); try reflexivity.
    constructor; [now split|constructor].
  - destruct (issues_of (Page i t)) as [|x issues] eqn:Ei.
    + injection H as <- <-. cbn [requests_of answers removelast existsb length].
      rewrite E. cbn [is_failure orb flat_map progress_of running_totals].
      rewrite Ei.
      repeat split; try (simpl; lia); try reflexivity.
      * constructor; [now split|constructor].
      * now rewrite app_nil_r.
    + destruct (_ >=? _)%Z.
      * injection H as <- <-.
        cbn [requests_of answers removelast existsb length].
        rewrite E. cbn [is_failure orb flat_map progress_of running_totals].
        rewrite Ei, app_nil_r, length_app.
        repeat split; try (simpl; lia); try reflexivity.
        constructor; [now split|constructor].
      * destruct (fetch_loop _ _ _ fuel _ _ _) as [[evs' out']|] eqn:El;
          [|discriminate H].
        injection H as <- <-.
        destruct (IH _ _ _ _ _ El) as (Hrq & Hlen & Hlast & Hprog & Hout).
        cbn [app requests_of answers progress_of running_totals].
        rewrite E, Ei, <- length_app, <- Hprog.
        split; [constructor; [now split|exact Hrq]|].
        split; [cbn [length]; lia|]. split.
        { destruct (answers server (S n) (requests_of evs')) as [|r rs] eqn:Ea.
          - destruct (requests_of evs'); [simpl in Hlen; lia|discriminate Ea].
          - cbn [removelast existsb is_failure orb] in *. exact Hlast. }
        split; [reflexivity|].
        destruct out' as [tickets|code]; cbn [existsb is_failure orb flat_map].
        -- destruct Hout as [-> Hf]. split; [|exact Hf].
           now rewrite Ei, app_assoc.
        -- exact Hout.
Qed.

(** When the totals the server reports never exceed [total], the loop ends
    within [max 1 total] requests. *)
Lemma fetch_loop_bounded (total : Z) :
  (forall n rq, (total_of (server n rq) <= total)%Z) ->
  forall fuel n start_at all_issues,
    Nat.max 1 (Z.to_nat (total - start_at)) <= fuel ->
    exists evs out,
      fetch_loop server query max_results fuel n start_at all_issues
      = Some (evs, out)
      /\ length (requests_of evs) <= Nat.max 1 (Z.to_nat (total - start_at)).
Proof.
  intros Ht. induction fuel as [|fuel IH]; intros n s acc Hf; [lia|].
  cbn [fetch_loop].
  set (rq := {| jql := query; startAt := s; maxResults := max_results |}) in *.
  pose proof (Ht n rq) as Hn.
  destruct (server n rq) as [text|i t] eqn:E.
  - do 2 eexists. split; [reflexivity|]. rewrite requests_of_failure.
    cbn [length]. lia.
  - destruct (issues_of (Page i t)) as [|x issues] eqn:Ei.
    + do 2 eexists. split; [reflexivity|]. cbn [requests_of length]. lia.
    + rewrite Z.geb_leb.
      destruct (Z.leb_spec (total_of (Page i t))
                  (s + Z.of_nat (length (x :: issues)))) as [Hge|Hlt].
      * do 2 eexists. split; [reflexivity|]. cbn [requests_of length]. lia.
      * cbn [length] in *.
        destruct (IH (S n) (s + Z.of_nat (S (length issues)))%Z
                    (acc ++ x :: issues)) as (evs & out & El & Hle); [lia|].
        rewrite El. cbn [with_events]. do 2 eexists. split; [reflexivity|].
        cbn [app requests_of length]. lia.
Qed.

End RunFacts.

Lemma fetch_all_tickets_inv (server : nat -> request -> response)
    (project_key : pystr) (max_results : Z) (fuel : nat) (evs : list event)
    (out : outcome (list json)) :
  fetch_all_tickets server project_key max_results fuel = Some (evs, out) ->
  exists evs',
    fetch_loop server (project_query project_key) max_results fuel 0 0 []
    = Some (evs', out)
    /\ requests_of evs = requests_of evs'
    /\ progress_of evs = progress_of evs'
    /\ writes_of evs = writes_of evs'
    /\ evs = Print (MsgFetching project_key) :: evs'
             ++ match out with
                | Returned tickets => [Print (MsgTotal (length tickets))]
                | Exited _ => []
                end.
Proof.
  unfold fetch_all_tickets.
  destruct (fetch_loop _ _ _ _ _ _ _) as [[evs' [tickets|code]]|];
    [| |discriminate]; intros H; injection H as <- <-; exists evs'.
  - split; [reflexivity|]. cbn [requests_of progress_of writes_of].
    assert (Hr : forall a, requests_of (a ++ [Print (MsgTotal (length tickets))])
                           = requests_of a)
      by (intros a; rewrite requests_of_app; simpl; now rewrite app_nil_r).
    assert (Hp : forall a, progress_of (a ++ [Print (MsgTotal (length tickets))])
                           = progress_of a).
    { induction a as [|[[]| |] a IHa]; simpl; now rewrite ?IHa. }
    assert (Hw : forall a, writes_of (a ++ [Print (MsgTotal (length tickets))])
                           = writes_of a).
    { induction a as [|[| |] a IHa]; simpl; now rewrite ?IHa. }
    now rewrite Hr, Hp, Hw.
  - rewrite app_nil_r. repeat split; reflexivity.
Qed.

(** X1: the tickets a run returns are the issues of the pages it received,
    in the order of the requests: nothing is dropped, repeated or moved. *)
Theorem X1_fetch_returns_pages (server : nat -> request -> response)
    (project_key : pystr) (max_results : Z) (fuel : nat) (evs : list event)
    (tickets : list json) :
  fetch_all_tickets server project_key max_results fuel
  = Some (evs, Returned tickets) ->
  tickets = flat_map issues_of (answers server 0 (requests_of evs)).
Proof.
  intros H. destruct (fetch_all_tickets_inv _ _ _ _ H) as (evs' & Hl & -> & _).
  now destruct (fetch_loop_run _ _ _ _ _ _ _ Hl) as (_ & _ & _ & _ & -> & _).
Qed.

Lemma X1_fetch_returns_pages_witness :
  [plain_issue; plain_issue]
  = flat_map issues_of
      (answers stalling_server 0 (requests_of stalling_events)).
Proof.
  apply (@X1_fetch_returns_pages stalling_server (u "PROJ") 50%Z 5).
  vm_compute. reflexivity.
Defined.

(** X2: whatever the server answers, every request of a run carries the
    query [project = <key> ORDER BY created DESC] and the page size that
    was asked for, the first request starts at 0 and every other one at the
    number of issues received before it; a run with fuel [fuel] sends at
    least one request and at most [fuel]. *)
Theorem X2_requests_of_a_run (server : nat -> request -> response)
    (project_key : pystr) (max_results : Z) (fuel : nat) (evs : list event)
    (out : outcome (list json)) :
  fetch_all_tickets server project_key max_results fuel = Some (evs, out) ->
  Forall (fun rq => jql rq = u "project = " ++ project_key
                                ++ u " ORDER BY created DESC"
                    /\ maxResults rq = max_results) (requests_of evs)
  /\ cursor_chain server 0 0 (requests_of evs)
  /\ 1 <= length (requests_of evs) <= fuel.
Proof.
  intros H. destruct (fetch_all_tickets_inv _ _ _ _ H) as (evs' & Hl & -> & _).
  destruct (fetch_loop_run _ _ _ _ _ _ _ Hl) as (Hrq & Hlen & _).
  split; [exact Hrq|]. split; [|exact Hlen].
  exact (fetch_loop_cursors _ _ _ _ _ _ _ Hl).
Qed.

Lemma X2_requests_of_a_run_witness :
  Forall (fun rq => jql rq = u "project = " ++ u "PROJ"
                                ++ u " ORDER BY created DESC"
                    /\ maxResults rq = 50%Z) (requests_of stalling_events)
  /\ cursor_chain stalling_server 0 0 (requests_of stalling_events)
  /\ 1 <= length (requests_of stalling_events) <= 5.
Proof.
  apply (@X2_requests_of_a_run stalling_server (u "PROJ") 50%Z 5
           stalling_events (Returned [plain_issue; plain_issue])).
  vm_compute. reflexivity.
Defined.

(** X3: a run ends in [sys.exit(1)] exactly when a request failed, and the
    failed request is the last one it sent; a run that returns has seen no
    failure, and a run that exits prints no total. *)
Theorem X3_exit_iff_failure (server : nat -> request -> response)
    (project_key : pystr) (max_results : Z) (fuel : nat) (evs : list event)
    (out : outcome (list json)) :
  fetch_all_tickets server project_key max_results fuel = Some (evs, out) ->
  existsb is_failure (removelast (answers server 0 (requests_of evs))) = false
  /\ match out with
     | Returned tickets =>
         existsb is_failure (answers server 0 (requests_of evs)) = false
         /\ last evs (Print MsgPageSize) = Print (MsgTotal (length tickets))
     | Exited code =>
         code = 1%Z
         /\ existsb is_failure (answers server 0 (requests_of evs)) = true
         /\ forall n, ~ In (Print (MsgTotal n)) evs
     end.
Proof.
  intros H.
  destruct (fetch_all_tickets_inv _ _ _ _ H) as (evs' & Hl & Hr & _ & _ & He).
  rewrite Hr.
  destruct (fetch_loop_run _ _ _ _ _ _ _ Hl) as (_ & _ & Hlast & _ & Hout).
  split; [exact Hlast|].
  destruct out as [tickets|code].
  - split; [apply Hout|]. rewrite He.
    change (Print (MsgFetching project_key)
              :: evs' ++ [Print (MsgTotal (length tickets))])
      with ((Print (MsgFetching project_key) :: evs')
              ++ [Print (MsgTotal (length tickets))]).
    apply last_last.
  - destruct Hout as [-> Hf]. split; [reflexivity|]. split; [exact Hf|].
    intros n Hin. rewrite He, app_nil_r in Hin.
    destruct Hin as [Hin|Hin]; [discriminate Hin|].
    clear - Hl Hin. revert Hl Hin.
    generalize 0 at 1. generalize 0%Z. generalize (@nil json).
    revert evs'. induction fuel as [|fuel IH]; intros evs' acc s k Hl Hin;
      [discriminate Hl|].
    cbn [fetch_loop] in Hl.
    destruct (server k _) as [text|i t].
    + injection Hl as <-. destruct text; simpl in Hin;
        repeat (destruct Hin as [Hin|Hin]; try discriminate Hin); exact Hin.
    + destruct (issues_of (Page i t)) as [|x issues]; [discriminate Hl|].
      destruct (_ >=? _)%Z; [discriminate Hl|].
      destruct (fetch_loop _ _ _ fuel _ _ _) as [[evs1 out1]|] eqn:El;
        [|discriminate Hl].
      injection Hl as <- ->. simpl in Hin.
      destruct Hin as [Hin|[Hin|Hin]]; try discriminate Hin.
      exact (IH _ _ _ _ El Hin).
Qed.

Lemma X3_exit_iff_failure_witness :
  exists evs,
    fetch_all_tickets failing_server (u "PROJ") 50 5 = Some (evs, Exited 1)
    /\ existsb is_failure (answers failing_server 0 (requests_of evs)) = true
    /\ length (requests_of evs) = 2.
Proof.
  eexists. split; [vm_compute; reflexivity|].
  split; [|vm_compute; reflexivity].
  apply (@X3_exit_iff_failure failing_server (u "PROJ") 50%Z 5 _ (Exited 1)).
  vm_compute. reflexivity.
Defined.

(** X4: when the totals the server reports never exceed [total], the fetch
    ends, with any fuel of at least [max 1 total], after at most
    [max 1 total] requests, whatever the pages hold. *)
Theorem X4_fetch_terminates (server : nat -> request -> response)
    (project_key : pystr) (max_results total : Z) (fuel : nat) :
  (forall n rq, (total_of (server n rq) <= total)%Z) ->
  Nat.max 1 (Z.to_nat total) <= fuel ->
  exists evs out,
    fetch_all_tickets server project_key max_results fuel = Some (evs, out)
    /\ length (requests_of evs) <= Nat.max 1 (Z.to_nat total).
Proof.
  intros Ht Hf.
  destruct (@fetch_loop_bounded server (project_query project_key) max_results
              total Ht fuel 0 0%Z [])
    as (evs & out & H & Hle); [now rewrite Z.sub_0_r|].
  destruct (fetch_all_tickets_run _ _ _ _ H) as (evs' & H' & Hr).
  exists evs', out. rewrite Hr. split; [exact H'|].
  now rewrite Z.sub_0_r in Hle.
Qed.

Lemma X4_fetch_terminates_witness :
  (forall n rq, (total_of (stalling_server n rq) <= 10)%Z)
  /\ Nat.max 1 (Z.to_nat 10) <= 10
  /\ exists evs out,
       fetch_all_tickets stalling_server (u "PROJ") 50 10 = Some (evs, out)
       /\ length (requests_of evs) <= Nat.max 1 (Z.to_nat 10).
Proof.
  assert (Ht : forall n rq, (total_of (stalling_server n rq) <= 10)%Z).
  { intros n rq. unfold stalling_server. destruct (Nat.ltb n 2); simpl; lia. }
  split; [exact Ht|]. split; [vm_compute; lia|].
  apply (@X4_fetch_terminates stalling_server (u "PROJ") 50%Z 10%Z 10 Ht).
  vm_compute. lia.
Defined.

(** X5: a run prints the project first, then one progress message per
    non-empty page, each with the number of issues fetched so far. *)
Theorem X5_progress_messages (server : nat -> request -> response)
    (project_key : pystr) (max_results : Z) (fuel : nat) (evs : list event)
    (out : outcome (list json)) :
  fetch_all_tickets server project_key max_results fuel = Some (evs, out) ->
  hd_error evs = Some (Print (MsgFetching project_key))
  /\ progress_of evs
     = running_totals 0 (answers server 0 (requests_of evs)).
Proof.
  intros H.
  destruct (fetch_all_tickets_inv _ _ _ _ H) as (evs' & Hl & Hr & Hp & _ & He).
  rewrite Hr, Hp, He. split; [reflexivity|].
  now destruct (fetch_loop_run _ _ _ _ _ _ _ Hl) as (_ & _ & _ & -> & _).
Qed.

Lemma X5_progress_messages_witness :
  hd_error stalling_events = Some (Print (MsgFetching (u "PROJ")))
  /\ progress_of stalling_events
     = running_totals 0
         (answers stalling_server 0 (requests_of stalling_events)).
Proof.
  apply (@X5_progress_messages stalling_server (u "PROJ") 50%Z 5
           stalling_events (Returned [plain_issue; plain_issue])).
  vm_compute. reflexivity.
Defined.

(** ** Runs of [main] *)


Lemma fetch_loop_no_writes (server : nat -> request -> response)
    (query : pystr) (max_results : Z) (fuel : nat) :
  forall n start_at all_issues evs out,
    fetch_loop server query max_results fuel n start_at all_issues
    = Some (evs, out) ->
    writes_of evs = [].
Proof.
  induction fuel as [|fuel IH]; intros n s acc evs out H; [discriminate H|].
  cbn [fetch_loop] in H.
  destruct (server n _) as [text|i t].
  - injection H as <- <-. now destruct text.
  - destruct (issues_of (Page i t)) as [|x issues].
    + now injection H as <- <-.
    + destruct (_ >=? _)%Z.
      * now injection H as <- <-.
      * destruct (fetch_loop _ _ _ fuel _ _ _) as [[evs' out']|] eqn:El;
          [|discriminate H].
        injection H as <- <-. simpl. exact (IH _ _ _ _ _ El).
Qed.

Lemma fetch_no_writes (server : nat -> request -> response)
    (project_key : pystr) (max_results : Z) (fuel : nat) (evs : list event)
    (out : outcome (list json)) :
  fetch_all_tickets server project_key max_results fuel = Some (evs, out) ->
  writes_of evs = [].
Proof.
  intros H. destruct (fetch_all_tickets_inv _ _ _ _ H) as (evs' & Hl & _ & _ & -> & _).
  exact (fetch_loop_no_writes _ _ _ _ _ _ _ Hl).
Qed.

(** The ways [main] can end. *)
Lemma main_inv (B : PyBuiltins) (server : nat -> request -> response)
    (writable : pystr -> bool) (args : arguments) (fuel : nat)
    (evs : list event) (term : termination) :
  main B server writable args fuel = Some (evs, term) ->
  ((arg_max_results args < 1 \/ 100 < arg_max_results args)%Z
   /\ evs = [Print MsgPageSize] /\ term = ExitStatus 1)
  \/ ((1 <= arg_max_results args <= 100)%Z
      /\ exists fetched out,
           fetch_all_tickets server (arg_project args) (arg_max_results args)
             fuel = Some (fetched, out)
           /\ match out with
              | Exited code => evs = fetched /\ term = ExitStatus code
              | Returned tickets =>
                  match transform_to_prd_format B tickets
                          (or_default (arg_project_name args) (arg_project args))
                          (arg_branch_name args)
                          (arg_project_description args) with
                  | Raise e => evs = fetched /\ term = Uncaught e
                  | Ok prd =>
                      if writable (arg_output args)
                      then evs = fetched
                                 ++ [WriteFile (arg_output args) prd;
                                     Print (MsgSaved (arg_output args)
                                              (project prd)
                                              (length (userStories prd)))]
                           /\ term = ExitStatus 0
                      else evs = fetched ++ [Print MsgWriteError]
                           /\ term = ExitStatus 1
                  end
              end).
Proof.
  unfold main.
  destruct ((arg_max_results args <? 1)%Z || (arg_max_results args >? 100)%Z)
    eqn:E.
  - intros H. injection H as <- <-. left.
    apply orb_true_iff in E. rewrite Z.ltb_lt, Z.gtb_ltb, Z.ltb_lt in E.
    now repeat split.
  - apply orb_false_iff in E. rewrite Z.ltb_ge, Z.gtb_ltb, Z.ltb_ge in E.
    destruct (fetch_all_tickets _ _ _ _) as [[fetched [tickets|code]]|];
      [| |discriminate]; intros H; right; (split; [lia|]);
      exists fetched; eexists; (split; [reflexivity|]); cbn beta iota.
    + destruct (transform_to_prd_format _ _ _ _ _) as [prd|e].
      * destruct (writable _); injection H as <- <-; now split.
      * injection H as <- <-. now split.
    + injection H as <- <-. now split.
Qed.



(** X7: for a project without issues, a valid page size and a writable
    output, [main] sends one request, writes a document without user
    stories under the project name given or else the project key, and ends
    with the status 0. *)
Theorem X7_empty_project (B : PyBuiltins)
    (server : nat -> request -> response) (writable : pystr -> bool)
    (args : arguments) (fuel : nat) :
  (1 <= arg_max_results args <= 100)%Z ->
  (forall rq, is_empty_page (server 0 rq) = true) ->
  writable (arg_output args) = true ->
  1 <= fuel ->
  exists evs prd,
    main B server writable args fuel = Some (evs, ExitStatus 0)
    /\ length (requests_of evs) = 1
    /\ writes_of evs = [(arg_output args, prd)]
    /\ userStories prd = []
    /\ project prd = or_default (arg_project_name args) (arg_project args)
    /\ branchName prd
       = or_default (arg_branch_name args)
           (u "feature/"
              ++ replace_spaces
                   (str_lower B
                      (or_default (arg_project_name args) (arg_project args))))
    /\ prdDescription prd
       = or_default (arg_project_description args)
           (u "JIRA tickets for project "
              ++ or_default (arg_project_name args) (arg_project args)).
Proof.
  intros Hb He Hw Hf. unfold main.
  assert (E : (arg_max_results args <? 1)%Z || (arg_max_results args >? 100)%Z
              = false).
  { apply orb_false_iff. rewrite Z.ltb_ge, Z.gtb_ltb, Z.ltb_ge. lia. }
  rewrite E. unfold fetch_all_tickets.
  destruct fuel as [|fuel]; [lia|]. cbn [fetch_loop].
  destruct (empty_page_issues _ (He {| jql := project_query (arg_project args);
                                       startAt := 0;
                                       maxResults := arg_max_results args |}))
    as (i & t & -> & Hi).
  rewrite Hi. cbn [transform_to_prd_format transform_loop bind]. rewrite Hw.
  do 2 eexists. split; [reflexivity|]. now repeat split.
Qed.

Lemma X7_empty_project_witness :
  exists evs prd,
    main ascii_builtins empty_server (fun _ => true) (example_args 100) 1
    = Some (evs, ExitStatus 0)
    /\ length (requests_of evs) = 1
    /\ writes_of evs = [(u "prd.json", prd)]
    /\ userStories prd = []
    /\ project prd = u "PROJ"
    /\ branchName prd = u "feature/proj"
    /\ prdDescription prd = u "JIRA tickets for project PROJ".
Proof.
  apply (@X7_empty_project ascii_builtins empty_server (fun _ => true)
           (example_args 100) 1);
    [vm_compute; split; discriminate | intros rq; reflexivity | reflexivity | lia].
Defined.

(** X8: when a request of the run failed, [main] ends with the status 1 and
    has written no file. *)
Theorem X8_failure_aborts_main (B : PyBuiltins)
    (server : nat -> request -> response) (writable : pystr -> bool)
    (args : arguments) (fuel : nat) (evs : list event) (term : termination) :
  main B server writable args fuel = Some (evs, term) ->
  existsb is_failure (answers server 0 (requests_of evs)) = true ->
  term = ExitStatus 1 /\ writes_of evs = [].
Proof.
  intros H Hfail.
  destruct (main_inv _ _ _ _ _ H) as [(_ & -> & ->)|(_ & fetched & out & Hf & Hm)];
    [discriminate Hfail|].
  destruct (fetch_all_tickets_inv _ _ _ _ Hf) as (evs' & Hl & Hr & _).
  destruct (fetch_loop_run _ _ _ _ _ _ _ Hl) as (_ & _ & _ & _ & Hout).
  pose proof (fetch_no_writes _ _ _ _ Hf) as Hw.
  destruct out as [tickets|code].
  - exfalso. destruct Hout as [_ Hno].
    assert (Hreq : requests_of evs = requests_of evs').
    { rewrite <- Hr.
      destruct (transform_to_prd_format _ _ _ _ _) as [prd|e].
      - destruct (writable _); destruct Hm as [-> _];
          rewrite requests_of_app; simpl; now rewrite app_nil_r.
      - now destruct Hm as [-> _]. }
    rewrite Hreq, Hno in Hfail. discriminate Hfail.
  - destruct Hm as [-> ->]. destruct Hout as [-> _]. now split.
Qed.

Lemma X8_failure_aborts_main_witness :
  main ascii_builtins failing_server (fun _ => true) (example_args 50) 5
  = Some (events_of (main ascii_builtins failing_server (fun _ => true)
                       (example_args 50) 5), ExitStatus 1)
  /\ writes_of (events_of (main ascii_builtins failing_server (fun _ => true)
                             (example_args 50) 5)) = [].
Proof.
  split; [vm_compute; reflexivity|].
  apply (@X8_failure_aborts_main ascii_builtins failing_server (fun _ => true)
           (example_args 50) 5 _ (ExitStatus 1));
    vm_compute; reflexivity.
Defined.

(** ** More on the transformer *)

Lemma pystr_eqb_eq (a b : pystr) : pystr_eqb a b = true <-> a = b.
Proof.
  revert b. induction a as [|x a IH]; intros [|y b]; simpl;
    try (split; [discriminate|discriminate]); [now split|].
  rewrite andb_true_iff, N.eqb_eq, IH. split.
  - now intros [-> ->].
  - intros H. now injection H as -> ->.
Qed.

Lemma is_done_spec (status : pystr) :
  is_done status = true <-> In status done_statuses.
Proof.
  unfold is_done, done_statuses. rewrite existsb_exists. split.
  - intros (x & Hin & Hx). apply pystr_eqb_eq in Hx. now subst x.
  - intros Hin. exists status. split; [exact Hin|]. now apply pystr_eqb_eq.
Qed.

(** X9: a story passes exactly when its issue has a status name whose
    lower-cased form is [done], [closed], [resolved] or [completed]; an
    issue without a status, or with a status without a name, does not
    pass. *)
Theorem X9_passes_iff_done (B : PyBuiltins) (tickets : list json)
    (name : pystr) (branch descr : option pystr) (prd : PRD) (i : nat)
    (ticket : json) :
  transform_to_prd_format B tickets name branch descr = Ok prd ->
  nth_error tickets i = Some ticket ->
  exists story,
    nth_error (userStories prd) i = Some story
    /\ (passes story = true <->
        exists label,
          status_label ticket = Some label
          /\ In (str_lower B label)
               [u "done"; u "closed"; u "resolved"; u "completed"]).
Proof.
  intros H Hn. destruct (transform_nth _ _ _ _ _ _ H Hn) as (story & Hs & Ht).
  exists story. split; [exact Hs|].
  destruct (transform_ticket_inv _ _ _ Ht)
    as (items & fields & ex & st & -> & Ef & _ & _ & _ & _ & _ & _ & Hst & -> & _).
  unfold status_label. rewrite (fields_of_ticket _ _ Ef).
  revert Hst. unfold dict_get_default.
  destruct (dict_get fields (u "status")) as [v|]; cbn [name_lower].
  - destruct v as [ | | | | | |sobj]; cbn [name_lower]; try discriminate.
    unfold dict_get_default.
    destruct (dict_get sobj (u "name")) as [[ | | | |label| | ]|];
      try discriminate; intros Hst; injection Hst as <-.
    + rewrite is_done_spec. split.
      * intros Hin. now exists label.
      * intros (l & Hl & Hin). now injection Hl as ->.
    + rewrite str_lower_ascii by reflexivity. split; [discriminate|].
      intros (l & Hl & _). discriminate Hl.
  - cbn. rewrite str_lower_ascii by reflexivity. intros Hst.
    injection Hst as <-. split; [discriminate|].
    intros (l & Hl & _). discriminate Hl.
Qed.

Lemma X9_passes_iff_done_witness :
  exists story,
    nth_error (userStories (example_prd [plain_issue; closed_issue])) 1
    = Some story
    /\ (passes story = true <->
        exists label,
          status_label closed_issue = Some label
          /\ In (str_lower ascii_builtins label)
               [u "done"; u "closed"; u "resolved"; u "completed"]).
Proof.
  apply (@X9_passes_iff_done ascii_builtins [plain_issue; closed_issue]
           (u "PROJ") None None (example_prd [plain_issue; closed_issue]) 1
           closed_issue);
    reflexivity.
Defined.

(** X10: the description of a story is always a string: the raw
    description itself when it is a non-empty string, the text extracted
    from it when it is a document object, ["Implement <title>"] when it is
    [null] or the empty string, and the empty string when the issue has no
    description. *)
Theorem X10_description_resolution (B : PyBuiltins) (tickets : list json)
    (name : pystr) (branch descr : option pystr) (prd : PRD) (i : nat)
    (ticket : json) :
  transform_to_prd_format B tickets name branch descr = Ok prd ->
  nth_error tickets i = Some ticket ->
  exists story text,
    nth_error (userStories prd) i = Some story
    /\ description story = JStr text
    /\ (forall c s,
          field ticket (u "description") = Some (JStr (c :: s)) ->
          text = c :: s)
    /\ (forall doc,
          field ticket (u "description") = Some (JObj doc) ->
          _extract_text_from_adf B (JObj doc) = Ok text)
    /\ (field ticket (u "description") = Some JNull
        \/ field ticket (u "description") = Some (JStr []) ->
        text = u "Implement " ++ py_format B (title story))
    /\ (field ticket (u "description") = None -> text = []).
Proof.
  intros H Hn. destruct (transform_nth _ _ _ _ _ _ H Hn) as (story & Hs & Ht).
  destruct (transform_ticket_inv _ _ _ Ht)
    as (items & fields & ex & st & -> & Ef & _ & _ & Hd & Hex & _).
  destruct (description story) as [ | | | |text| | ] eqn:Ed; try discriminate Hex.
  exists story, text. split; [exact Hs|]. split; [exact Ed|].
  rewrite (fields_of_ticket _ _ Ef).
  revert Hd. unfold resolve_description, dict_get_default.
  destruct (dict_get fields (u "description")) as [v|].
  - intros Hd. repeat split.
    + intros c s E. injection E as ->. cbn in Hd. now injection Hd as ->.
    + intros doc E. injection E as ->. cbn [is_dict] in Hd.
      destruct (_extract_text_from_adf B (JObj doc)) as [t|]; [|discriminate Hd].
      cbn in Hd. now injection Hd as ->.
    + intros [E|E]; injection E as ->; cbn in Hd; now injection Hd as <-.
    + discriminate.
  - cbn [is_dict]. intros Hd. repeat split; try discriminate.
    + intros [E|E]; discriminate E.
    + intros _. revert Hd. unfold _extract_text_from_adf. cbn.
      intros Hd. now injection Hd as <-.
Qed.

Lemma X10_description_resolution_witness :
  exists story text,
    nth_error (userStories (example_prd [plain_issue; closed_issue])) 1
    = Some story
    /\ description story = JStr text
    /\ text = u "Users can export the report.".
Proof.
  destruct (@X10_description_resolution ascii_builtins
              [plain_issue; closed_issue] (u "PROJ") None None
              (example_prd [plain_issue; closed_issue]) 1 closed_issue
              eq_refl eq_refl)
    as (story & text & Hs & Hd & Hstr & _).
  exists story, text. split; [exact Hs|]. split; [exact Hd|].
  exact (Hstr _ _ eq_refl).
Defined.

Lemma priority_map_range (k : pystr) (p : Z) :
  table_lookup priority_map k = Some p -> (1 <= p <= 5)%Z.
Proof.
  unfold priority_map. cbn [table_lookup].
  repeat (destruct (pystr_eqb _ k);
          [intros E; injection E as <-; lia|]).
  discriminate.
Qed.

(** X11: the priority of a story is a positive integer: a rank from 1 to 5
    of the table, or the 1-based position of the story. *)
Theorem X11_priority_range (B : PyBuiltins) (tickets : list json)
    (name : pystr) (branch descr : option pystr) (prd : PRD) (i : nat)
    (story : UserStory) :
  transform_to_prd_format B tickets name branch descr = Ok prd ->
  nth_error (userStories prd) i = Some story ->
  (1 <= priority story)%Z
  /\ ((priority story <= 5)%Z \/ priority story = Z.of_nat (S i)).
Proof.
  intros H Hs.
  destruct (transform_story_origin _ _ _ _ _ _ H Hs) as (ticket & _ & Ht).
  destruct (transform_ticket_inv _ _ _ Ht)
    as (items & fields & ex & st & -> & Ef & _ & _ & _ & _ & _ & Hp & _).
  rewrite (resolve_priority_label _ _ _ Ef Hp).
  destruct (priority_label (JObj items)) as [label|]; [|lia].
  unfold priority_map_get.
  destruct (table_lookup priority_map (str_lower B label)) as [p|] eqn:E.
  - apply priority_map_range in E. lia.
  - lia.
Qed.

Lemma X11_priority_range_witness :
  (1 <= priority (story_at (example_prd seven_issues) 6))%Z
  /\ ((priority (story_at (example_prd seven_issues) 6) <= 5)%Z
      \/ priority (story_at (example_prd seven_issues) 6) = Z.of_nat 7).
Proof.
  apply (@X11_priority_range ascii_builtins seven_issues (u "PROJ") None None
           (example_prd seven_issues) 6); reflexivity.
Defined.

Lemma transform_loop_app (B : PyBuiltins) (a b : list json) :
  forall idx stories,
    transform_loop B idx (a ++ b) = Ok stories ->
    exists sa sb,
      transform_loop B idx a = Ok sa
      /\ transform_loop B (idx + length a) b = Ok sb
      /\ stories = sa ++ sb.
Proof.
  induction a as [|t a IH]; intros idx stories H.
  - exists [], stories. rewrite Nat.add_0_r. now repeat split.
  - cbn [app transform_loop] in H. cbn [transform_loop].
    destruct (transform_ticket B idx t) as [story|]; [|discriminate H].
    cbn [bind] in *.
    destruct (transform_loop B (S idx) (a ++ b)) as [rest|] eqn:E;
      [|discriminate H].
    injection H as <-. destruct (IH _ _ E) as (sa & sb & -> & Hb & ->).
    exists (story :: sa), sb. cbn [bind length].
    rewrite Nat.add_succ_r. now repeat split.
Qed.

(** X12: the stories keep the order and the number of the tickets, and
    tickets that follow never change the stories before them: the stories
    of the first tickets of a list are those of these tickets transformed
    alone, under the same project name, branch name and description. *)
Theorem X12_prefix_stable (B : PyBuiltins) (first more : list json)
    (name : pystr) (branch descr : option pystr) (prd : PRD) :
  transform_to_prd_format B (first ++ more) name branch descr = Ok prd ->
  length (userStories prd) = length first + length more
  /\ exists prd',
       transform_to_prd_format B first name branch descr = Ok prd'
       /\ userStories prd' = firstn (length first) (userStories prd)
       /\ project prd' = project prd
       /\ branchName prd' = branchName prd
       /\ prdDescription prd' = prdDescription prd.
Proof.
  unfold transform_to_prd_format. intros H.
  destruct (transform_loop B 1 (first ++ more)) as [stories|] eqn:E;
    [|discriminate H].
  injection H as <-. cbn [userStories project branchName prdDescription].
  destruct (transform_loop_nth _ _ _ E) as [L _].
  split; [now rewrite L, length_app|].
  destruct (transform_loop_app _ _ _ _ E) as (sa & sb & Ha & _ & ->).
  rewrite Ha. cbn [bind]. eexists. split; [reflexivity|].
  cbn [userStories project branchName prdDescription].
  destruct (transform_loop_nth _ _ _ Ha) as [La _].
  rewrite <- La, firstn_app, Nat.sub_diag, firstn_all. cbn [firstn].
  now rewrite app_nil_r.
Qed.

Lemma X12_prefix_stable_witness :
  length (userStories (example_prd ([plain_issue] ++ [closed_issue]))) = 1 + 1
  /\ exists prd',
       transform_to_prd_format ascii_builtins [plain_issue] (u "PROJ") None None
       = Ok prd'
       /\ userStories prd'
          = firstn 1 (userStories (example_prd ([plain_issue] ++ [closed_issue])))
       /\ project prd' = project (example_prd ([plain_issue] ++ [closed_issue]))
       /\ branchName prd'
          = branchName (example_prd ([plain_issue] ++ [closed_issue]))
       /\ prdDescription prd'
          = prdDescription (example_prd ([plain_issue] ++ [closed_issue])).
Proof.
  apply (@X12_prefix_stable ascii_builtins [plain_issue] [closed_issue]
           (u "PROJ") None None
           (example_prd ([plain_issue] ++ [closed_issue])) eq_refl).
Defined.

(** ** More on the criteria extraction *)

Lemma drop_while_head (p : N -> bool) (s : pystr) (c : N) (t : pystr) :
  drop_while p s = c :: t -> p c = false.
Proof.
  induction s as [|d s IH]; simpl; [discriminate|].
  destruct (p d) eqn:E; [exact IH|].
  intros H. now injection H as <- _.
Qed.

Lemma drop_while_suffix (p : N -> bool) (s : pystr) :
  exists before, s = before ++ drop_while p s.
Proof.
  induction s as [|d s [before IH]]; simpl; [now exists []|].
  destruct (p d); [|now exists []].
  exists (d :: before). simpl. now rewrite <- IH.
Qed.

Section StripFacts.

Variable B : PyBuiltins.

Lemma strip_piece (s : pystr) : piece_of (strip B s) s.
Proof.
  unfold strip.
  destruct (drop_while_suffix (chr_isspace B) s) as [before Hs].
  destruct (drop_while_suffix (chr_isspace B)
              (rev (drop_while (chr_isspace B) s))) as [after Hr].
  exists before, (rev after).
  rewrite <- rev_app_distr, <- Hr, rev_involutive. exact Hs.
Qed.

Lemma strip_trimmed (s : pystr) : strip B s <> [] -> trimmed B (strip B s).
Proof.
  intros Hne. split; [exact Hne|]. unfold strip in *.
  set (y := drop_while (chr_isspace B) s) in *.
  destruct (drop_while (chr_isspace B) (rev y)) as [|d z] eqn:Ez;
    [now contradiction Hne|].
  pose proof (drop_while_head _ _ Ez) as Hd.
  split.
  - destruct (drop_while_suffix (chr_isspace B) (rev y)) as [after Hr].
    rewrite Ez in Hr.
    assert (Hy : y = rev (d :: z) ++ rev after)
      by now rewrite <- rev_app_distr, <- Hr, rev_involutive.
    destruct (rev (d :: z)) as [|c t] eqn:Er;
      [now apply (f_equal (@length N)) in Er; rewrite length_rev in Er|].
    cbn [hd]. unfold y in Hy. cbn [app] in Hy.
    exact (drop_while_head _ _ Hy).
  - cbn [rev]. now rewrite last_last.
Qed.

Lemma piece_of_trans (a b c : pystr) :
  piece_of a b -> piece_of b c -> piece_of a c.
Proof.
  intros (p1 & q1 & ->) (p2 & q2 & ->).
  exists (p2 ++ p1), (q1 ++ q2). now rewrite <- !app_assoc.
Qed.

Lemma suffix_piece (before s : pystr) : piece_of s (before ++ s).
Proof. exists before, []. now rewrite app_nil_r. Qed.

Lemma clean_line_piece (line : pystr) : piece_of (clean_line B line) line.
Proof.
  unfold clean_line, lstrip_chars.
  destruct (drop_while_suffix (char_in bullet_chars) line) as [b1 H1].
  set (c1 := drop_while (char_in bullet_chars) line) in *.
  apply piece_of_trans with c1;
    [|exists b1, []; rewrite app_nil_r; exact H1].
  destruct (starts_digit B c1); [|apply strip_piece].
  destruct (drop_while_suffix (char_in numbering_chars) c1) as [b2 H2].
  eapply piece_of_trans; [apply strip_piece|].
  exists b2, []. rewrite app_nil_r. exact H2.
Qed.

Lemma nonempty_spec (s : pystr) : nonempty s = true <-> s <> [].
Proof. destruct s; simpl; split; congruence. Qed.

(** What a turn of the loop adds to the criteria. *)
Lemma criteria_step_adds (in_section : bool) (criteria : list pystr)
    (raw : pystr) (in_section' : bool) (criteria' : list pystr) :
  criteria_step B in_section criteria raw = Next in_section' criteria' ->
  criteria' = criteria
  \/ exists c, criteria' = criteria ++ [c] /\ trimmed B c /\ piece_of c raw.
Proof.
  unfold criteria_step.
  destruct (is_marker B (strip B raw));
    [intros H; injection H as <- <-; now left|].
  destruct (is_section_end B in_section (strip B raw)); [discriminate|].
  destruct (in_section && nonempty (strip B raw));
    [|intros H; injection H as <- <-; now left].
  destruct (nonempty (clean_line B (strip B raw))) eqn:En;
    intros H; injection H as <- <-; [|now left].
  right. exists (clean_line B (strip B raw)). split; [reflexivity|]. split.
  - apply nonempty_spec in En. unfold clean_line in *. now apply strip_trimmed.
  - eapply piece_of_trans; [apply clean_line_piece|apply strip_piece].
Qed.

Lemma criteria_loop_pieces (all : list pystr) (lines : list pystr) :
  incl lines all ->
  forall in_section criteria,
    Forall (fun c => trimmed B c /\ exists line, In line all /\ piece_of c line)
      criteria ->
    Forall (fun c => trimmed B c /\ exists line, In line all /\ piece_of c line)
      (criteria_loop B lines in_section criteria).
Proof.
  induction lines as [|raw rest IH]; intros Hin st cs Hcs; [exact Hcs|].
  cbn [criteria_loop].
  destruct (criteria_step B st cs raw) as [st' cs'|] eqn:E; [|exact Hcs].
  apply IH; [intros l Hl; apply Hin; now right|].
  destruct (criteria_step_adds _ _ _ E) as [->|(c & -> & Ht & Hp)]; [exact Hcs|].
  apply Forall_app. split; [exact Hcs|].
  constructor; [|constructor]. split; [exact Ht|].
  exists raw. split; [apply Hin; now left|exact Hp].
Qed.

Lemma starts_with_app (a b s : pystr) :
  starts_with (a ++ b) s = true -> starts_with a s = true.
Proof.
  revert s. induction a as [|x a IH]; intros s; [reflexivity|].
  destruct s as [|c s]; simpl; [discriminate|].
  intros H. apply andb_prop in H as [-> H]. now apply IH.
Qed.

Lemma contains_app (a b s : pystr) :
  contains (a ++ b) s = true -> contains a s = true.
Proof.
  induction s as [|c s IH]; cbn [contains]; intros H;
    apply orb_true_iff in H as [H|H]; try discriminate H;
    apply orb_true_iff; [left| left |right; now apply IH];
    now apply starts_with_app with b.
Qed.

(** The test for ["acceptance criteria"] adds nothing to the test for
    ["acceptance"]. *)
Lemma is_marker_acceptance (line : pystr) :
  is_marker B line = contains (u "acceptance") (str_lower B line).
Proof.
  unfold is_marker.
  destruct (contains (u "acceptance criteria") (str_lower B line)) eqn:E;
    [|reflexivity].
  symmetry. now apply (contains_app (u "acceptance") (u " criteria")).
Qed.

(** Lines without the marker leave a scan that is outside the section as it
    is. *)
Lemma state_after_no_marker (lines : list pystr) (criteria : list pystr) :
  (forall line, In line lines ->
     contains (u "acceptance") (str_lower B (strip B line)) = false) ->
  state_after B lines false criteria = Next false criteria.
Proof.
  induction lines as [|raw rest IH]; intros H; [reflexivity|].
  cbn [state_after]. unfold criteria_step.
  rewrite is_marker_acceptance, (H raw (or_introl eq_refl)).
  cbn [is_section_end andb]. apply IH. intros l Hl. apply H. now right.
Qed.

End StripFacts.

Lemma split_on_no_separator (sep : N) (s : pystr) :
  Forall (fun line => ~ In sep line) (split_on sep s).
Proof.
  induction s as [|c s IH]; [constructor; [tauto|constructor]|].
  cbn [split_on]. destruct (N.eqb_spec c sep) as [->|Hne].
  - constructor; [tauto|exact IH].
  - destruct (split_on sep s) as [|w ws].
    + constructor; [|constructor]. intros [E|[]]. congruence.
    + inversion IH as [|? ? Hw Hws]; subst. constructor; [|exact Hws].
      intros [E|Hin]; [congruence|now apply Hw].
Qed.

(** X13: every extracted criterion is a non-empty contiguous piece of one
    line of the description, without white space at either end and without
    a newline: the extraction cuts text, it never joins or invents it. *)
Theorem X13_criteria_are_pieces (B : PyBuiltins) (description : pystr)
    (criteria : list pystr) :
  _extract_acceptance_criteria B (JStr description) = Ok criteria ->
  Forall (fun c =>
            c <> []
            /\ chr_isspace B (hd 0%N c) = false
            /\ chr_isspace B (last c 0%N) = false
            /\ ~ In 10%N c
            /\ exists line before rest,
                 In line (split_on 10 description)
                 /\ line = before ++ c ++ rest) criteria.
Proof.
  intros H. injection H as <-.
  pose proof (@criteria_loop_pieces B (split_on 10 description)
                (split_on 10 description) (incl_refl _)
                false [] (Forall_nil _)) as Hp.
  pose proof (split_on_no_separator 10 description) as Hs.
  rewrite Forall_forall in *. intros c Hc.
  destruct (Hp c Hc) as [(Hne & Hh & Hl) (line & Hin & before & rest & ->)].
  repeat split; try assumption.
  - intros H10. apply (Hs _ Hin). apply in_or_app. right.
    apply in_or_app. now left.
  - now exists (before ++ c ++ rest), before, rest.
Qed.

Lemma X13_criteria_are_pieces_witness :
  Forall (fun c =>
            c <> []
            /\ chr_isspace ascii_builtins (hd 0%N c) = false
            /\ chr_isspace ascii_builtins (last c 0%N) = false
            /\ ~ In 10%N c
            /\ exists line before rest,
                 In line (split_on 10 criteria_example)
                 /\ line = before ++ c ++ rest)
    [u "Do the thing"; u "Do another thing"].
Proof.
  apply (@X13_criteria_are_pieces ascii_builtins criteria_example).
  reflexivity.
Defined.

(** X14: what comes before the first line with the marker is ignored: the
    result is that of the description from that line on, and it is empty
    when no line has the marker. *)
Theorem X14_text_before_marker_ignored (B : PyBuiltins)
    (description description' : pystr) (before rest : list pystr) :
  split_on 10 description = before ++ rest ->
  (rest <> [] -> split_on 10 description' = rest) ->
  (forall line, In line before ->
     contains (u "acceptance") (str_lower B (strip B line)) = false) ->
  _extract_acceptance_criteria B (JStr description)
  = match rest with
    | [] => Ok []
    | _ :: _ => _extract_acceptance_criteria B (JStr description')
    end.
Proof.
  intros Hd Hd' Hno. cbn [_extract_acceptance_criteria]. rewrite Hd.
  rewrite (criteria_loop_app B before rest false []
             (state_after_no_marker B before [] Hno)).
  destruct rest as [|r rest]; [reflexivity|].
  now rewrite Hd' by discriminate.
Qed.

Lemma X14_text_before_marker_ignored_witness :
  _extract_acceptance_criteria ascii_builtins (JStr criteria_example)
  = _extract_acceptance_criteria ascii_builtins
      (JStr (text_of_lines
               ["Acceptance Criteria:"; "- Do the thing";
                "2) Do another thing"; "Notes: ignore this"]%string)).
Proof.
  apply (@X14_text_before_marker_ignored ascii_builtins criteria_example
           (text_of_lines
              ["Acceptance Criteria:"; "- Do the thing";
               "2) Do another thing"; "Notes: ignore this"]%string)
           [u "Some intro."]
           [u "Acceptance Criteria:"; u "- Do the thing";
            u "2) Do another thing"; u "Notes: ignore this"]).
  - reflexivity.
  - intros _. reflexivity.
  - intros line [<-|[]]. reflexivity.
Defined.

(** X15: the line that ends the section ends the extraction: when the
    section is open and a line without the marker starts with an upper-case
    letter and has a colon, the result is what was collected before it,
    whatever follows, a second criteria section included. *)
Theorem X15_nothing_after_section_end (B : PyBuiltins) (description : pystr)
    (before rest : list pystr) (raw : pystr) (criteria : list pystr) :
  split_on 10 description = before ++ raw :: rest ->
  state_after B before false [] = Next true criteria ->
  contains (u "acceptance") (str_lower B (strip B raw)) = false ->
  starts_upper B (strip B raw) = true ->
  contains (u ":") (strip B raw) = true ->
  _extract_acceptance_criteria B (JStr description) = Ok criteria.
Proof.
  intros Hd Hopen Hm Hu Hc. cbn [_extract_acceptance_criteria]. rewrite Hd.
  rewrite (criteria_loop_app B before (raw :: rest) false [] Hopen).
  cbn [criteria_loop]. unfold criteria_step, is_section_end.
  rewrite is_marker_acceptance, Hm, Hu, Hc.
  destruct (strip B raw); [discriminate Hu|reflexivity].
Qed.

Lemma X15_nothing_after_section_end_witness :
  _extract_acceptance_criteria ascii_builtins (JStr two_sections_example)
  = Ok [u "first"].
Proof.
  apply (@X15_nothing_after_section_end ascii_builtins two_sections_example
           [u "Acceptance Criteria:"; u "- first"]
           [u "Acceptance tests:"; u "- second"]
           (u "Notes: see below") [u "first"]);
    reflexivity.
Defined.

(** X16: a story whose description has no line with the marker gets the
    three default criteria, with its title in the first. *)
Theorem X16_default_without_marker (B : PyBuiltins) (tickets : list json)
    (name : pystr) (branch descr : option pystr) (prd : PRD) (i : nat)
    (story : UserStory) (text : pystr) :
  transform_to_prd_format B tickets name branch descr = Ok prd ->
  nth_error (userStories prd) i = Some story ->
  description story = JStr text ->
  (forall line, In line (split_on 10 text) ->
     contains (u "acceptance") (str_lower B (strip B line)) = false) ->
  acceptanceCriteria story
  = [u "Implement " ++ py_format B (title story);
     u "Code passes all tests"; u "Documentation updated"].
Proof.
  intros H Hs Hd Hno.
  destruct (transform_story_origin _ _ _ _ _ _ H Hs) as (ticket & _ & Ht).
  destruct (transform_ticket_inv _ _ _ Ht)
    as (items & fields & ex & st & _ & _ & _ & _ & _ & Hex & -> & _).
  rewrite Hd in Hex. cbn [_extract_acceptance_criteria] in Hex.
  injection Hex as <-.
  rewrite <- (app_nil_r (split_on 10 text)).
  now rewrite (criteria_loop_app B (split_on 10 text) [] false []
                 (state_after_no_marker B _ [] Hno)).
Qed.

Lemma X16_default_without_marker_witness :
  acceptanceCriteria (story_at (example_prd [plain_issue; closed_issue]) 1)
  = [u "Implement " ++ u "Export report";
     u "Code passes all tests"; u "Documentation updated"].
Proof.
  apply (@X16_default_without_marker ascii_builtins [plain_issue; closed_issue]
           (u "PROJ") None None (example_prd [plain_issue; closed_issue]) 1
           (story_at (example_prd [plain_issue; closed_issue]) 1)
           (u "Users can export the report."));
    try reflexivity.
  intros line [<-|[]]. reflexivity.
Defined.

(** ** More on the document text extraction *)

Lemma for_each_text_leaves (texts : list pystr) (parts : list json) :
  for_each traverse (map text_leaf texts) parts
  = Ok (parts ++ map JStr texts).
Proof.
  revert parts. induction texts as [|t texts IH]; intros parts.
  - now rewrite app_nil_r.
  - cbn [map for_each]. 
    assert (E : traverse (text_leaf t) parts = Ok (parts ++ [JStr t]))
      by reflexivity.
    rewrite E, IH. now rewrite <- app_assoc.
Qed.

Lemma all_strings_map (texts : list pystr) :
  all_strings (map JStr texts) = Ok texts.
Proof.
  induction texts as [|t texts IH]; [reflexivity|].
  cbn [map all_strings]. now rewrite IH.
Qed.

(** X17: a paragraph of text nodes is rendered as their texts joined by
    single spaces, without the white space at the two ends. *)
Theorem X17_paragraph_of_texts (B : PyBuiltins) (texts : list pystr) :
  _extract_text_from_adf B (paragraph_node (map text_leaf texts))
  = Ok (strip B (join (u " ") texts)).
Proof.
  unfold _extract_text_from_adf.
  assert (E : traverse (paragraph_node (map text_leaf texts)) []
              = for_each traverse (map text_leaf texts) []) by reflexivity.
  assert (Hd : is_dict (paragraph_node (map text_leaf texts)) = true)
    by reflexivity.
  rewrite Hd, E, for_each_text_leaves.
  cbn [negb app bind]. now rewrite all_strings_map.
Qed.

Lemma needs_break_after_break (parts : list json) :
  needs_break (parts ++ [JStr newline]) = false.
Proof. unfold needs_break. now rewrite rev_app_distr. Qed.

Lemma traverse_container (ty : pystr) (children : list json)
    (parts : list json) :
  traverse (JObj [(u "type", JStr ty); (u "content", JArr children)]) parts
  = for_each traverse children
      (visit [(u "type", JStr ty); (u "content", JArr children)] parts).
Proof. reflexivity. Qed.

Lemma visit_break (ty : pystr) (rest : list (pystr * json))
    (parts : list json) :
  ty = u "paragraph" \/ ty = u "heading" ->
  visit ((u "type", JStr ty) :: rest) parts
  = if needs_break parts then parts ++ [JStr newline] else parts.
Proof. intros [-> | ->]; reflexivity. Qed.

(** X18: breaks do not pile up: a paragraph that is the only child of a
    paragraph or of a heading gives one break, not two, so the document
    reads as if the inner paragraph stood alone. *)
Theorem X18_nested_paragraph_collapses (outer : pystr) (children : list json)
    (parts : list json) :
  outer = u "paragraph" \/ outer = u "heading" ->
  traverse
    (JObj [(u "type", JStr outer);
           (u "content", JArr [paragraph_node children])]) parts
  = traverse (paragraph_node children) parts.
Proof.
  intros Ho. rewrite traverse_container. cbn [for_each].
  unfold paragraph_node. rewrite !traverse_container.
  rewrite (visit_break _ _ Ho), !(visit_break _ _ (or_introl eq_refl)).
  destruct (needs_break parts) eqn:En.
  - rewrite needs_break_after_break.
    now destruct (for_each traverse children (parts ++ [JStr newline])).
  - rewrite En. now destruct (for_each traverse children parts).
Qed.

Lemma X18_nested_paragraph_collapses_witness :
  traverse
    (JObj [(u "type", JStr (u "heading"));
           (u "content", JArr [paragraph_node [text_node "World"]])])
    [JStr (u "Hello")]
  = traverse (paragraph_node [text_node "World"]) [JStr (u "Hello")].
Proof.
  apply (@X18_nested_paragraph_collapses (u "heading") [text_node "World"]
           [JStr (u "Hello")]).
  right. reflexivity.
Defined.

(** X19: the text extraction of a document object raises exactly when, on
    the way through the document, a [content] is not iterable or a text
    node carries something else than a string; the text it returns has no
    white space at either end. *)
Theorem X19_extraction_succeeds_iff_well_formed (B : PyBuiltins)
    (doc : list (pystr * json)) :
  is_ok (_extract_text_from_adf B (JObj doc)) = adf_ok (JObj doc)
  /\ forall text,
       _extract_text_from_adf B (JObj doc) = Ok text ->
       text = []
       \/ (chr_isspace B (hd 0%N text) = false
           /\ chr_isspace B (last text 0%N) = false).
Proof.
  split.
  - destruct (adf_ok (JObj doc)) eqn:Hok.
    + now destruct (extract_text_ok B (JObj doc) Hok) as [text ->].
    + destruct (_extract_text_from_adf B (JObj doc)) as [text|] eqn:E;
        [|reflexivity].
      rewrite (extract_text_inv B (JObj doc) eq_refl E) in Hok.
      discriminate Hok.
  - intros text. unfold _extract_text_from_adf. cbn [is_dict negb].
    destruct (traverse (JObj doc) []) as [parts|]; [|discriminate].
    cbn [bind]. destruct (all_strings parts) as [ss|]; [|discriminate].
    cbn [bind]. intros E. injection E as <-.
    destruct (strip B (join (u " ") ss)) as [|c t] eqn:Es; [now left|].
    right. assert (Hne : strip B (join (u " ") ss) <> [])
      by (rewrite Es; discriminate).
    rewrite <- Es. apply (strip_trimmed B _ Hne).
Qed.

Lemma X19_extraction_succeeds_iff_well_formed_witness :
  _extract_text_from_adf ascii_builtins broken_doc = Raise TypeError
  /\ adf_ok broken_doc = false.
Proof.
  pose proof (proj1 (@X19_extraction_succeeds_iff_well_formed ascii_builtins
                       [(u "type", JStr (u "doc")); (u "content", JNull)]))
    as H.
  split; [reflexivity|].
  etransitivity; [symmetry; exact H | reflexivity].
Defined.

(** ** The base URL of the fetcher *)

Lemma drop_while_split (p : N -> bool) (s : pystr) :
  exists before,
    s = before ++ drop_while p s /\ forallb p before = true.
Proof.
  induction s as [|d s (before & IH & Hall)]; simpl; [now exists []|].
  destruct (p d) eqn:E; [|now exists []].
  exists (d :: before). simpl. rewrite E, Hall. split; [now rewrite <- IH|reflexivity].
Qed.

Lemma drop_while_app_all (p : N -> bool) (a s : pystr) :
  forallb p a = true -> drop_while p (a ++ s) = drop_while p s.
Proof.
  induction a as [|c a IH]; [reflexivity|]. simpl.
  intros H. apply andb_prop in H as [-> H]. now apply IH.
Qed.

Lemma slash_only (c : N) : char_in (u "/") c = true <-> c = 47%N.
Proof.
  unfold char_in. cbn [u map list_ascii_of_string existsb].
  rewrite orb_false_r. apply N.eqb_eq.
Qed.

Lemma all_slashes (l : pystr) :
  forallb (char_in (u "/")) l = true -> l = repeat 47%N (length l).
Proof.
  induction l as [|c l IH]; [reflexivity|]. simpl.
  intros H. apply andb_prop in H as [Hc Hl]. apply slash_only in Hc.
  now rewrite Hc, <- IH.
Qed.

Lemma repeat_all_slashes (k : nat) :
  forallb (char_in (u "/")) (repeat 47%N k) = true.
Proof. induction k as [|k IH]; [reflexivity|]. simpl. exact IH. Qed.

(** X20: the fetcher keeps the URL it was given without its trailing
    slashes: the URL is the kept one followed by slashes only, the kept one
    does not end with a slash, and a URL written with more trailing slashes
    gives the same fetcher and the same search URL. *)
Theorem X20_base_url_normalised (url email api_token : pystr) (k : nat) :
  (exists n,
      url = jira_url (JiraFetcher_init url email api_token) ++ repeat 47%N n)
  /\ last (jira_url (JiraFetcher_init url email api_token)) 0%N <> 47%N
  /\ JiraFetcher_init (url ++ repeat 47%N k) email api_token
     = JiraFetcher_init url email api_token
  /\ search_url (JiraFetcher_init (url ++ repeat 47%N k) email api_token)
     = rstrip_chars (u "/") url ++ u "/rest/api/2/search".
Proof.
  assert (Hsame : rstrip_chars (u "/") (url ++ repeat 47%N k)
                  = rstrip_chars (u "/") url).
  { unfold rstrip_chars. rewrite rev_app_distr. f_equal.
    apply drop_while_app_all.
    rewrite (all_slashes _ (repeat_all_slashes k)) at 1.
    rewrite forallb_forall. intros c Hc. apply in_rev in Hc.
    apply repeat_spec in Hc. subst c. reflexivity. }
  unfold search_url, JiraFetcher_init. cbn [jira_url]. rewrite Hsame.
  repeat split.
  - unfold rstrip_chars.
    destruct (drop_while_split (char_in (u "/")) (rev url))
      as (before & Hr & Hall).
    exists (length before).
    rewrite <- (rev_involutive url), Hr at 1. rewrite rev_app_distr.
    f_equal. rewrite <- (length_rev before). apply all_slashes.
    rewrite forallb_forall in *. intros c Hc. apply Hall. now apply in_rev.
  - unfold rstrip_chars.
    destruct (drop_while (char_in (u "/")) (rev url)) as [|c t] eqn:E;
      [discriminate|].
    cbn [rev]. rewrite last_last. intros ->.
    apply drop_while_head in E. discriminate E.
Qed.

(** ** The ids made up for issues without a key *)

Lemma parse_decimal_digits (fuel : nat) :
  forall n acc,
    (N.to_nat n < fuel)%nat ->
    fold_left (fun v d => (v * 10 + (d - 48))%N) (digits_fuel fuel n acc) 0%N
    = fold_left (fun v d => (v * 10 + (d - 48))%N) acc n.
Proof.
  induction fuel as [|fuel IH]; intros n acc Hf; [lia|].
  cbn [digits_fuel]. destruct (N.ltb_spec n 10) as [Hlt|Hge].
  - cbn [fold_left]. f_equal.
    rewrite (N.add_comm 48), N.add_sub, N.mod_small by exact Hlt.
    reflexivity.
  - rewrite IH.
    + cbn [fold_left]. f_equal.
      rewrite (N.add_comm 48), N.add_sub, N.mul_comm. symmetry.
      apply N.div_mod. discriminate.
    + assert (n / 10 < n)%N by (apply N.div_lt; lia). lia.
Qed.

Lemma digits_fuel_digits (fuel : nat) :
  forall n acc,
    forallb is_digit_char acc = true ->
    forallb is_digit_char (digits_fuel fuel n acc) = true.
Proof.
  induction fuel as [|fuel IH]; intros n acc Hacc; [exact Hacc|].
  cbn [digits_fuel].
  assert (Hd : forallb is_digit_char ((48 + n mod 10)%N :: acc) = true).
  { cbn [forallb]. rewrite Hacc, andb_true_r. unfold is_digit_char.
    pose proof (N.mod_upper_bound n 10 ltac:(discriminate)) as Hm.
    set (m := (n mod 10)%N) in *. clearbody m.
    apply andb_true_intro. split; apply N.leb_le; lia. }
  destruct (N.ltb n 10); [exact Hd|now apply IH].
Qed.

Lemma digits_fuel_length (k : nat) :
  forall fuel n acc,
    (1 <= k <= fuel)%nat ->
    (n < 10 ^ N.of_nat k)%N ->
    (1 + length acc <= length (digits_fuel fuel n acc) <= k + length acc)%nat.
Proof.
  induction k as [|k IH]; intros fuel n acc Hk Hn; [lia|].
  destruct fuel as [|fuel]; [lia|]. cbn [digits_fuel].
  destruct (N.ltb_spec n 10) as [Hlt|Hge]; [cbn [length]; lia|].
  destruct k as [|k]; [cbn in Hn; lia|].
  assert (Hq : (n / 10 < 10 ^ N.of_nat (S k))%N).
  { apply N.Div0.div_lt_upper_bound.
    rewrite Nat2N.inj_succ, N.pow_succ_r' in Hn. exact Hn. }
  specialize (IH fuel (n / 10)%N ((48 + n mod 10)%N :: acc) ltac:(lia) Hq).
  cbn [length] in IH. lia.
Qed.

Lemma zeros_parse (k : nat) (s : pystr) :
  parse_decimal (repeat 48%N k ++ s) = parse_decimal s.
Proof.
  unfold parse_decimal. rewrite fold_left_app. f_equal.
  induction k as [|k IH]; [reflexivity|exact IH].
Qed.

Lemma pad3_parse (n : N) : parse_decimal (pad3 n) = n.
Proof.
  unfold pad3. rewrite zeros_parse. unfold parse_decimal, decimal.
  rewrite parse_decimal_digits by lia. reflexivity.
Qed.

(** X21: the number part of a made-up id reads back as the position it was
    made from: it has decimal digits only, at least three of them, and
    exactly three up to the position 999. *)
Theorem X21_pad3_round_trip (n : N) :
  parse_decimal (pad3 n) = n
  /\ forallb is_digit_char (pad3 n) = true
  /\ 3 <= length (pad3 n)
  /\ ((n < 1000)%N -> length (pad3 n) = 3).
Proof.
  split; [apply pad3_parse|]. unfold pad3, decimal. split; [|split].
  - rewrite forallb_app. apply andb_true_intro. split.
    + apply forallb_forall. intros c Hc. apply repeat_spec in Hc. now subst c.
    + now apply digits_fuel_digits.
  - rewrite length_app, repeat_length. lia.
  - intros Hn. rewrite length_app, repeat_length.
    destruct (N.ltb_spec n 100) as [Hs|Hb].
    + destruct (N.ltb_spec n 10) as [Hs1|Hb1].
      * pose proof (@digits_fuel_length 1 (S (N.to_nat n)) n [] ltac:(lia)
                      ltac:(cbn; lia)) as H.
        cbn [length] in H. lia.
      * pose proof (@digits_fuel_length 2 (S (N.to_nat n)) n [] ltac:(lia)
                      ltac:(cbn; lia)) as H.
        cbn [length] in H. lia.
    + pose proof (@digits_fuel_length 3 (S (N.to_nat n)) n [] ltac:(lia)
                    ltac:(cbn; lia)) as H.
      cbn [length] in H. lia.
Qed.

(** X22: two issues without a key at different positions of the list get
    different ids. *)
Theorem X22_made_up_ids_differ (B : PyBuiltins) (tickets : list json)
    (name : pystr) (branch descr : option pystr) (prd : PRD) (i j : nat)
    (ti tj : json) (si sj : UserStory) :
  transform_to_prd_format B tickets name branch descr = Ok prd ->
  nth_error tickets i = Some ti -> key_field ti = None ->
  nth_error tickets j = Some tj -> key_field tj = None ->
  nth_error (userStories prd) i = Some si ->
  nth_error (userStories prd) j = Some sj ->
  i <> j ->
  id si <> id sj.
Proof.
  intros H Hi Hki Hj Hkj Hsi Hsj Hne.
  destruct (transform_nth _ _ _ _ _ _ H Hi) as (si' & Hsi' & Hti).
  destruct (transform_nth _ _ _ _ _ _ H Hj) as (sj' & Hsj' & Htj).
  assert (si' = si) by congruence. assert (sj' = sj) by congruence.
  subst si' sj'.
  destruct (transform_ticket_inv _ _ _ Hti)
    as (items1 & ? & ? & ? & -> & _ & Hid1 & _).
  destruct (transform_ticket_inv _ _ _ Htj)
    as (items2 & ? & ? & ? & -> & _ & Hid2 & _).
  rewrite Hid1, Hid2, !key_field_default, Hki, Hkj.
  intros E.
  assert (E' : u "US-" ++ pad3 (N.of_nat (S i))
               = u "US-" ++ pad3 (N.of_nat (S j))) by congruence.
  apply app_inv_head in E'. apply (f_equal parse_decimal) in E'.
  rewrite !pad3_parse in E'. apply Nat2N.inj in E'. lia.
Qed.

Lemma X22_made_up_ids_differ_witness :
  id (story_at (example_prd [JObj []; plain_issue; JObj []]) 0)
  <> id (story_at (example_prd [JObj []; plain_issue; JObj []]) 2).
Proof.
  apply (@X22_made_up_ids_differ ascii_builtins [JObj []; plain_issue; JObj []]
           (u "PROJ") None None
           (example_prd [JObj []; plain_issue; JObj []]) 0 2
           (JObj []) (JObj []));
    try reflexivity.
  discriminate.
Defined.

(** ** The head of the document *)




(** ** The marker and the bullets *)

(** X24: outside the section, a line opens it exactly when its stripped,
    lower-cased text contains ["acceptance"]: the test for ["acceptance
    criteria"] on the same line adds nothing, and the line itself is never
    emitted. *)
Theorem X24_section_opens_iff (B : PyBuiltins) (raw : pystr)
    (criteria : list pystr) :
  (criteria_step B false criteria raw = Next true criteria
   <-> contains (u "acceptance") (str_lower B (strip B raw)) = true)
  /\ (criteria_step B false criteria raw = Next false criteria
      <-> contains (u "acceptance") (str_lower B (strip B raw)) = false).
Proof.
  unfold criteria_step. rewrite is_marker_acceptance.
  destruct (contains (u "acceptance") (str_lower B (strip B raw)));
    cbn [is_section_end andb]; split; split; trivial; discriminate.
Qed.

(** X25: bullets and spaces at the start of a line do not count: a line
    gives the same criterion with or without them. *)
Theorem X25_leading_bullets_dropped (B : PyBuiltins) (bullets text : pystr) :
  forallb (char_in bullet_chars) bullets = true ->
  clean_line B (bullets ++ text) = clean_line B text.
Proof.
  intros H. unfold clean_line, lstrip_chars.
  now rewrite (drop_while_app_all _ bullets text H).
Qed.

Lemma X25_leading_bullets_dropped_witness :
  clean_line ascii_builtins (u " - * " ++ u "2) Do another thing")
  = clean_line ascii_builtins (u "2) Do another thing").
Proof.
  apply (@X25_leading_bullets_dropped ascii_builtins (u " - * ")
           (u "2) Do another thing")).
  reflexivity.
Defined.

(** X26: every request [main] sends carries the project key of the command
    line in its query and the page size of the command line, which is then
    between 1 and 100. *)
Theorem X26_main_requests (B : PyBuiltins)
    (server : nat -> request -> response) (writable : pystr -> bool)
    (args : arguments) (fuel : nat) (evs : list event) (term : termination) :
  main B server writable args fuel = Some (evs, term) ->
  Forall (fun rq =>
            jql rq = u "project = " ++ arg_project args
                       ++ u " ORDER BY created DESC"
            /\ maxResults rq = arg_max_results args
            /\ (1 <= maxResults rq <= 100)%Z) (requests_of evs).
Proof.
  intros H.
  destruct (main_inv _ _ _ _ _ H)
    as [(_ & -> & _)|(Hb & fetched & out & Hf & Hm)]; [constructor|].
  assert (Hreq : requests_of evs = requests_of fetched).
  { destruct out as [tickets|code]; [|now destruct Hm as [-> _]].
    destruct (transform_to_prd_format _ _ _ _ _) as [prd|e];
      [|now destruct Hm as [-> _]].
    destruct (writable _); destruct Hm as [-> _];
      rewrite requests_of_app; simpl; now rewrite app_nil_r. }
  rewrite Hreq.
  destruct (fetch_all_tickets_inv _ _ _ _ Hf) as (evs' & Hl & -> & _).
  destruct (fetch_loop_run _ _ _ _ _ _ _ Hl) as (Hrq & _).
  rewrite Forall_forall in *. intros rq Hin.
  destruct (Hrq rq Hin) as [Hq Hm']. rewrite Hm'. now repeat split.
Qed.

Lemma X26_main_requests_witness :
  Forall (fun rq =>
            jql rq = u "project = " ++ u "PROJ" ++ u " ORDER BY created DESC"
            /\ maxResults rq = 50%Z
            /\ (1 <= maxResults rq <= 100)%Z)
    (requests_of (events_of (main ascii_builtins stalling_server
                               (fun _ => true) (example_args 50) 5))).
Proof.
  apply (@X26_main_requests ascii_builtins stalling_server (fun _ => true)
           (example_args 50) 5 _ (ExitStatus 0)).
  vm_compute. reflexivity.
Defined.
